(** * Book-exchange request service: request and transaction lifecycle

    A shallow embedding of the Express route handlers of
    [routes/requestRoutes.js] and [routes/transactionRoutes.js] together with
    the two Mongoose schemas [models/Request.js] and [models/Transaction.js].

    Handlers are modelled as they run once [authenticateToken] has called
    [next()]: a handler takes the parsed JSON body and the route parameter,
    reads and writes the two collections, and answers with a status code and
    a payload.  The collections are lists in insertion order. *)

From Stdlib Require Import ZArith NArith Ascii String DecimalString.
From stdpp Require Import base gmap strings list option.

Local Open Scope Z_scope.

(** ** JavaScript values of a parsed JSON body *)

(** What [express.json()] can put in [req.body].  A missing property reads as
    [undefined], which is [None] at type [option JsValue].  Numbers are the
    integers; a fractional number behaves in every branch below like a
    non-zero integer. *)
#[local] Unset Elimination Schemes.
Inductive JsValue : Type :=
| JNull
| JBool (b : bool)
| JNumber (n : Z)
| JString (s : string)
| JArray (items : list JsValue)
| JObject (props : list (string * JsValue)).
#[local] Set Elimination Schemes.

(** [req.body] and the object literal handed to [findByIdAndUpdate]. *)
Abbreviation Body := (gmap string JsValue).

Module Js.

(** JavaScript truthiness, the test behind [!x]. *)
Definition truthy (v : option JsValue) : bool :=
  match v with
  | None => false
  | Some JNull => false
  | Some (JBool b) => b
  | Some (JNumber n) => negb (n =? 0)
  | Some (JString s) => negb (bool_decide (s = ""))
  | Some (JArray _) => true
  | Some (JObject _) => true
  end.

(** [list.includes(v)] for a list of string literals: only a string equal
    to one of them is included. *)
Definition includes (l : list string) (v : option JsValue) : bool :=
  match v with
  | Some (JString s) => bool_decide (s ∈ l)
  | _ => false
  end.

(** The string a value is; used on values that passed [includes]. *)
Definition asString (v : option JsValue) : string :=
  match v with
  | Some (JString s) => s
  | _ => ""
  end.

(** [v === lit] for a string literal. *)
Definition strictEq (v : option JsValue) (lit : string) : bool :=
  match v with
  | Some (JString s) => bool_decide (s = lit)
  | _ => false
  end.

(** [obj.k] on an object literal of the body; the last binding wins. *)
Fixpoint prop (k : string) (props : list (string * JsValue)) : option JsValue :=
  match props with
  | [] => None
  | (k', v) :: rest =>
      match prop k rest with
      | Some w => Some w
      | None => if bool_decide (k' = k) then Some v else None
      end
  end.

(** [String(n)] for an integer, which JavaScript prints in decimal digits
    below 10^21; from there on it uses the exponent form, which is outside
    this embedding. *)
Definition Number_toString (n : Z) : string :=
  NilZero.string_of_int (Z.to_int n).

Definition isSpace (c : ascii) : bool :=
  bool_decide (c = " "%char) || bool_decide (c = "009"%char)
  || bool_decide (c = "010"%char) || bool_decide (c = "013"%char).

Fixpoint trimStart (s : string) : string :=
  match s with
  | String c rest => if isSpace c then trimStart rest else s
  | EmptyString => EmptyString
  end.

Definition trim (s : string) : string :=
  String.rev (trimStart (String.rev (trimStart s))).

Definition digit (c : ascii) : option Z :=
  let n := Z.of_N (N_of_ascii c) in
  if (48 <=? n) && (n <=? 57) then Some (n - 48) else None.

Fixpoint digits (acc : Z) (s : string) : option Z :=
  match s with
  | EmptyString => Some acc
  | String c rest =>
      match digit c with
      | Some d => digits (10 * acc + d) rest
      | None => None
      end
  end.

(** [Number(s)] on the integer literals: surrounding white space is
    dropped, the empty string is 0, a sign may precede the decimal digits.
    [None] is [NaN].  The other numeric literals of JavaScript (a fraction,
    an exponent, a radix prefix, [Infinity]) are outside this embedding, as
    are the numbers that are no integers: on them [None] does not say what
    the code does. *)
Definition Number_ofString (s : string) : option Z :=
  match trim s with
  | EmptyString => Some 0
  | String "-" (String c r) => Z.opp <$> digits 0 (String c r)
  | String "+" (String c r) => digits 0 (String c r)
  | t => digits 0 t
  end.

End Js.

(** ** Mongoose: errors, casting, validators *)

(** What [save()], [findById...] and the constructors can throw. *)
Inductive Thrown : Type :=
| ValidationError   (* a schema validator or a cast failed on a document *)
| CastError         (* a query or an update value could not be cast *)
| DuplicateKey      (* E11000 on a unique index *)
| ImmutableField.   (* an update that would change [_id] *)

Inductive Result (A : Type) : Type :=
| Ok (a : A)
| Throw (e : Thrown).
Arguments Ok {A} a.
Arguments Throw {A} e.

Definition bind {A B} (r : Result A) (k : A -> Result B) : Result B :=
  match r with
  | Ok a => k a
  | Throw e => Throw e
  end.

Notation "'try' x <- e1 ; e2" := (bind e1 (fun x => e2))
  (at level 10, x name, e1 at level 100, e2 at level 200).

(** A 12-byte ObjectId, as the number its bytes spell. *)
Definition ObjectId := N.

(** The two casts that belong to the driver and are not part of this
    repository: [toObjectId v] is what [new ObjectId(...)] makes of a non-null
    value inside [castObjectId], [toDate v] what [castDate] makes of a
    non-null, non-empty value; [None] is a failed cast. *)
Class Casts := {
  toObjectId : JsValue -> option ObjectId;
  toDate : JsValue -> option Z
}.

Module Mongoose.

(** [castString]: strings are kept, numbers and booleans are printed, an
    object stands for its non-empty string [_id]; arrays and other objects
    do not cast.  [null] stays [null]. *)
Definition castString (v : JsValue) : Result (option string) :=
  match v with
  | JNull => Ok None
  | JString s => Ok (Some s)
  | JNumber n => Ok (Some (Js.Number_toString n))
  | JBool b => Ok (Some (if b then "true" else "false"))
  | JObject props =>
      match Js.prop "_id" props with
      | Some (JString s) =>
          if bool_decide (s = "") then Throw CastError else Ok (Some s)
      | _ => Throw CastError
      end
  | JArray _ => Throw CastError
  end.

(** [castNumber]: [null] and the empty string give [null], strings and
    booleans go through [Number], [NaN] does not cast, nor do arrays and
    object literals. *)
Definition castNumber (v : JsValue) : Result (option Z) :=
  match v with
  | JNull => Ok None
  | JNumber n => Ok (Some n)
  | JString s =>
      if bool_decide (s = "") then Ok None
      else match Js.Number_ofString s with
           | Some n => Ok (Some n)
           | None => Throw CastError
           end
  | JBool b => Ok (Some (if b then 1 else 0))
  | JArray _ => Throw CastError
  | JObject _ => Throw CastError
  end.

(** [castObjectId] and [castDate] around the driver's casts. *)
Definition castObjectId `{Casts} (v : JsValue) : Result (option ObjectId) :=
  match v with
  | JNull => Ok None
  | _ => match toObjectId v with
         | Some id => Ok (Some id)
         | None => Throw CastError
         end
  end.

Definition castDate `{Casts} (v : JsValue) : Result (option Z) :=
  match v with
  | JNull => Ok None
  | JString "" => Ok None
  | _ => match toDate v with
         | Some d => Ok (Some d)
         | None => Throw CastError
         end
  end.

(** The cast of the [_id] condition of a [findById...] query, and of any
    other ObjectId condition, on a route parameter. *)
Definition castId `{Casts} (id : string) : Result ObjectId :=
  match toObjectId (JString id) with
  | Some oid => Ok oid
  | None => Throw CastError
  end.

(** A schema path read from the constructor's argument: [undefined] takes
    the default, anything else is cast. *)
Definition path {A} (cast : JsValue -> Result (option A)) (dflt : option A)
    (v : option JsValue) : Result (option A) :=
  match v with
  | None => Ok dflt
  | Some v => cast v
  end.

(** [required: true] on a String path: present and not empty. *)
Definition requiredString (o : option string) : Result string :=
  match o with
  | Some s => if bool_decide (s = "") then Throw ValidationError else Ok s
  | None => Throw ValidationError
  end.

(** [required: true] on any other path: present. *)
Definition required {A} (o : option A) : Result A :=
  match o with
  | Some a => Ok a
  | None => Throw ValidationError
  end.

(** [enum: [...]] on a String path. *)
Definition enum (values : list string) (s : string) : Result string :=
  if bool_decide (s ∈ values) then Ok s else Throw ValidationError.

(** Document validation reports a failed cast as a validation error. *)
Definition validated {A} (r : Result A) : Result A :=
  match r with
  | Ok a => Ok a
  | Throw _ => Throw ValidationError
  end.

(** [ObjectId.toHexString()]: twenty-four hexadecimal digits. *)
Definition hexDigit (n : N) : ascii :=
  if (n <? 10)%N then ascii_of_N (48 + n) else ascii_of_N (87 + n).

Fixpoint hexDigits (k : nat) (n : N) (acc : string) : string :=
  match k with
  | O => acc
  | S k' => hexDigits k' (n / 16)%N (String (hexDigit (n mod 16)%N) acc)
  end.

Definition toHexString (id : ObjectId) : string := hexDigits 24 id "".

End Mongoose.

(** ** Collections *)

(** The operations of a Mongoose model the routes use, over a collection kept
    in insertion order and keyed by [_id]. *)
Module Collection.
Section Collection.

Context {Doc : Type} (idOf : Doc -> ObjectId).

(** [Model.findById(id)] *)
Fixpoint findById (id : ObjectId) (coll : list Doc) : option Doc :=
  match coll with
  | [] => None
  | d :: rest => if bool_decide (idOf d = id) then Some d else findById id rest
  end.

(** [Model.findByIdAndUpdate(id, update, { new: true })]: the first
    document with that [_id] is replaced by its update, which is returned. *)
Fixpoint findByIdAndUpdate (id : ObjectId) (update : Doc -> Doc)
    (coll : list Doc) : option (list Doc * Doc) :=
  match coll with
  | [] => None
  | d :: rest =>
      if bool_decide (idOf d = id) then Some (update d :: rest, update d)
      else match findByIdAndUpdate id update rest with
           | Some (rest', d') => Some (d :: rest', d')
           | None => None
           end
  end.

(** [Model.findByIdAndDelete(id)] *)
Fixpoint findByIdAndDelete (id : ObjectId) (coll : list Doc)
    : option (list Doc * Doc) :=
  match coll with
  | [] => None
  | d :: rest =>
      if bool_decide (idOf d = id) then Some (rest, d)
      else match findByIdAndDelete id rest with
           | Some (rest', d') => Some (d :: rest', d')
           | None => None
           end
  end.

End Collection.
End Collection.

(** ** models/Request.js *)

Module Request.

Record t := {
  _id : ObjectId;
  RequestID : ObjectId;
  RequestedBy : string;
  RequestedTo : string;
  BookID : string;
  RequestDate : Z;
  Status : string;
  DeliveryMethod : string;
  Duration : Z;
  NegotiatedTerms : option string;
  createdAt : Z;
  updatedAt : Z
}.

Definition statuses : list string :=
  ["Pending"; "Accepted"; "Rejected"; "Modified"].

Definition deliveryMethods : list string := ["In-person"; "Shipping"].

(** [new Request({...})] with the validation that [save()] runs first.
    [id] and [key] are the ObjectIds generated for [_id] and for the
    default of [RequestID]; [now] is the clock, which the [timestamps]
    option writes to [createdAt] and [updatedAt].  The arguments are the
    properties of the object literal in the route: values of the body, a
    [Date] and a string literal. *)
Definition create (id key : ObjectId) (now : Z)
    (requestedBy requestedTo bookID : option JsValue)
    (requestDate : Z) (status : string)
    (deliveryMethod duration negotiatedTerms : option JsValue) : Result t :=
  Mongoose.validated (
    try rby <- Mongoose.path Mongoose.castString None requestedBy;
    try rby <- Mongoose.requiredString rby;
    try rto <- Mongoose.path Mongoose.castString None requestedTo;
    try rto <- Mongoose.requiredString rto;
    try book <- Mongoose.path Mongoose.castString None bookID;
    try book <- Mongoose.requiredString book;
    try st <- Mongoose.enum statuses status;
    try dm <- Mongoose.path Mongoose.castString None deliveryMethod;
    try dm <- Mongoose.requiredString dm;
    try dm <- Mongoose.enum deliveryMethods dm;
    try dur <- Mongoose.path Mongoose.castNumber None duration;
    try dur <- Mongoose.required dur;
    try terms <- Mongoose.path Mongoose.castString (Some "") negotiatedTerms;
    Ok {| _id := id; RequestID := key;
          RequestedBy := rby; RequestedTo := rto; BookID := book;
          RequestDate := requestDate; Status := st;
          DeliveryMethod := dm; Duration := dur; NegotiatedTerms := terms;
          createdAt := now; updatedAt := now |}).

(** The identifiers generated for a new request are held by no stored
    one. *)
Definition fresh (id key : ObjectId) (coll : list t) : Prop :=
  Forall (fun r => _id r ≠ id ∧ RequestID r ≠ key) coll.

(** What the schema asks of the strings of a stored request. *)
Definition valid (r : t) : Prop :=
  RequestedBy r ≠ "" ∧ RequestedTo r ≠ "" ∧ BookID r ≠ ""
  ∧ Status r ∈ statuses ∧ DeliveryMethod r ∈ deliveryMethods.

(** The insert of [save()]: [_id] is unique, and so is [RequestID]
    ([unique: true]). *)
Definition insert (r : t) (coll : list t) : Result (list t) :=
  if bool_decide (Exists (fun r' => _id r' = _id r ∨ RequestID r' = RequestID r) coll)
  then Throw DuplicateKey
  else Ok (coll ++ [r]).

(** The update [{ Status: status }]; [timestamps] adds [updatedAt]. *)
Definition setStatus (status : string) (now : Z) (r : t) : t :=
  {| _id := _id r; RequestID := RequestID r;
     RequestedBy := RequestedBy r; RequestedTo := RequestedTo r;
     BookID := BookID r; RequestDate := RequestDate r; Status := status;
     DeliveryMethod := DeliveryMethod r; Duration := Duration r;
     NegotiatedTerms := NegotiatedTerms r;
     createdAt := createdAt r; updatedAt := now |}.

End Request.

(** ** models/Transaction.js *)

Module Transaction.

Record t := {
  _id : ObjectId;
  TransactionID : option ObjectId;
  RequestID : ObjectId;
  OwnerID : string;
  BooKID : string;
  Status : string;
  TransactionDate : option Z;
  BookReturnedDate : option Z
}.

Definition statuses : list string :=
  ["Pending"; "In Progress"; "Shipping"; "Delivered"; "Cancelled"].

(** [new Transaction({...})] with the validation that [save()] runs first.
    [id] and [key] are the ObjectIds generated for [_id] and for the
    default of [TransactionID].  Only schema paths are arguments: under
    the default strict mode any other property of the object literal, such
    as [ExchangeRequestID], is dropped by the constructor.
    [transactionDate] is a [Date] or [undefined]. *)
Definition create `{Casts} (id key : ObjectId) (now : Z)
    (requestID ownerID booKID status : option JsValue)
    (transactionDate : option Z) (bookReturnedDate : option JsValue)
    : Result t :=
  Mongoose.validated (
    try req <- Mongoose.path Mongoose.castObjectId None requestID;
    try req <- Mongoose.required req;
    try owner <- Mongoose.path Mongoose.castString None ownerID;
    try owner <- Mongoose.requiredString owner;
    try book <- Mongoose.path Mongoose.castString None booKID;
    try book <- Mongoose.requiredString book;
    try st <- Mongoose.path Mongoose.castString (Some "Pending") status;
    try st <- Mongoose.requiredString st;
    try st <- Mongoose.enum statuses st;
    try returned <- Mongoose.path Mongoose.castDate None bookReturnedDate;
    Ok {| _id := id; TransactionID := Some key; RequestID := req;
          OwnerID := owner; BooKID := book; Status := st;
          TransactionDate := Some (default now transactionDate);
          BookReturnedDate := returned |}).

(** The identifiers generated for a new transaction are held by no
    stored one. *)
Definition fresh (id key : ObjectId) (coll : list t) : Prop :=
  Forall (fun x => _id x ≠ id ∧ TransactionID x ≠ Some key) coll.

(** The insert of [save()]: [_id] is unique, and so is [TransactionID]
    ([unique: true]). *)
Definition insert (x : t) (coll : list t) : Result (list t) :=
  if bool_decide (Exists (fun x' => _id x' = _id x ∨ TransactionID x' = TransactionID x) coll)
  then Throw DuplicateKey
  else Ok (coll ++ [x]).

(** The [$set] part of an update after casting: [None] leaves a path
    alone, [Some None] sets a nullable path to [null]. *)
Record Update := {
  set_id : option (option ObjectId);
  setTransactionID : option (option ObjectId);
  setRequestID : option ObjectId;
  setOwnerID : option string;
  setBooKID : option string;
  setStatus : option string;
  setTransactionDate : option (option Z);
  setBookReturnedDate : option (option Z)
}.

(** A path of the update: absent from the body, or cast. *)
Definition castPath {A} (cast : JsValue -> Result (option A))
    (v : option JsValue) : Result (option (option A)) :=
  match v with
  | None => Ok None
  | Some v => try a <- cast v; Ok (Some a)
  end.

(** An update validator on a path the update sets. *)
Definition validatePath {A B} (check : option A -> Result B)
    (v : option (option A)) : Result (option B) :=
  match v with
  | None => Ok None
  | Some a => try b <- check a; Ok (Some b)
  end.

(** What [findByIdAndUpdate(id, req.body, { runValidators: true })] does
    to the body before it reaches the database: the properties that are
    schema paths are cast (strict mode drops the others), then the
    validators of the paths that are set run.  The body is read as a plain
    set of fields.  That is what the code does for a body whose keys are
    paths of the schema and whose values are no object literals; a body with
    an update operator ([$set], [$max], [$rename], ...), a dotted key, the
    version key [__v] or an object value is outside this embedding, and the
    properties below that depend on the update being the one of the code
    assume a plain body. *)
Definition castUpdate `{Casts} (body : Body) : Result Update :=
  try id <- castPath Mongoose.castObjectId (body !! "_id");
  try key <- castPath Mongoose.castObjectId (body !! "TransactionID");
  try req <- castPath Mongoose.castObjectId (body !! "RequestID");
  try owner <- castPath Mongoose.castString (body !! "OwnerID");
  try book <- castPath Mongoose.castString (body !! "BooKID");
  try st <- castPath Mongoose.castString (body !! "Status");
  try date <- castPath Mongoose.castDate (body !! "TransactionDate");
  try returned <- castPath Mongoose.castDate (body !! "BookReturnedDate");
  try req <- validatePath Mongoose.required req;
  try owner <- validatePath Mongoose.requiredString owner;
  try book <- validatePath Mongoose.requiredString book;
  try st <- validatePath (fun s => try s <- Mongoose.requiredString s;
                                   Mongoose.enum statuses s) st;
  Ok {| set_id := id; setTransactionID := key; setRequestID := req;
        setOwnerID := owner; setBooKID := book; setStatus := st;
        setTransactionDate := date; setBookReturnedDate := returned |}.

(** The document after the update. *)
Definition apply (u : Update) (x : t) : t :=
  {| _id := _id x;
     TransactionID := default (TransactionID x) (setTransactionID u);
     RequestID := default (RequestID x) (setRequestID u);
     OwnerID := default (OwnerID x) (setOwnerID u);
     BooKID := default (BooKID x) (setBooKID u);
     Status := default (Status x) (setStatus u);
     TransactionDate := default (TransactionDate x) (setTransactionDate u);
     BookReturnedDate := default (BookReturnedDate x) (setBookReturnedDate u) |}.

(** What the database refuses: a change of [_id], and a [TransactionID]
    that another document holds. *)
Definition refused (u : Update) (x : t) (coll : list t) : option Thrown :=
  if bool_decide (is_Some (set_id u) ∧ set_id u ≠ Some (Some (_id x)))
  then Some ImmutableField
  else if bool_decide (is_Some (setTransactionID u)
                       ∧ Exists (fun x' => _id x' ≠ _id x
                                   ∧ TransactionID x' = TransactionID (apply u x)) coll)
  then Some DuplicateKey
  else None.

End Transaction.

(** ** The database and the answers of the routes *)

Record Store := {
  requests : list Request.t;
  transactions : list Transaction.t
}.

Definition emptyStore : Store := {| requests := []; transactions := [] |}.

(** What a handler takes from its environment: the clock read by
    [new Date()] and the two ObjectIds generated for a new document. *)
Record Env := {
  now : Z;
  newId : ObjectId;
  newKey : ObjectId
}.

(** The [error] property of an answer: a literal of the route, or the
    [message] of what was caught. *)
Inductive ErrorText : Type :=
| Text (s : string)
| MessageOf (e : Thrown).

Inductive Payload : Type :=
| error (e : ErrorText)
| message (m : string)
| created (m : string) (r : Request.t)
| request (r : Request.t)
| requestList (l : list Request.t)
| transaction (x : Transaction.t)
| transactionList (l : list Transaction.t).

(** [res.status(code).json(payload)] *)
Record Response := {
  code : nat;
  json : Payload
}.

Definition respond (c : nat) (p : Payload) : Response :=
  {| code := c; json := p |}.

(** ** routes/requestRoutes.js *)

Module RequestRoutes.

(** [router.post('/')]: create a new request. *)
Definition post (env : Env) (body : Body) (st : Store) : Store * Response :=
  let RequestedBy := body !! "RequestedBy" in
  let BookID := body !! "BookID" in
  let DeliveryMethod := body !! "DeliveryMethod" in
  let Duration := body !! "Duration" in
  let NegotiatedTerms := body !! "NegotiatedTerms" in
  let RequestedTo := body !! "RequestedTo" in
  if negb (Js.truthy RequestedBy) || negb (Js.truthy BookID)
     || negb (Js.truthy DeliveryMethod) || negb (Js.truthy Duration)
  then (st, respond 400 (error (Text "All required fields must be provided")))
  else
    match
      try newRequest <-
        Request.create (newId env) (newKey env) (now env)
          RequestedBy RequestedTo BookID (now env) "Pending"
          DeliveryMethod Duration NegotiatedTerms;
      try coll <- Request.insert newRequest (requests st);
      Ok (coll, newRequest)
    with
    | Ok (coll, savedRequest) =>
        ({| requests := coll; transactions := transactions st |},
         respond 201 (created "Exchange request created successfully." savedRequest))
    | Throw e => (st, respond 400 (error (MessageOf e)))
    end.

(** [router.get('/')]: all requests. *)
Definition getAll (st : Store) : Store * Response :=
  (st, respond 200 (requestList (requests st))).

(** The query [{ $or: [{ RequestedBy: userId }, { RequestedTo: userId }] }]. *)
Definition relatedTo (userId : string) (r : Request.t) : Prop :=
  Request.RequestedBy r = userId ∨ Request.RequestedTo r = userId.

#[global] Instance relatedTo_dec userId r : Decision (relatedTo userId r).
Proof. unfold relatedTo. apply _. Defined.

(** [router.get('/user/:userId')]: requests related to the user. *)
Definition getForUser (userId : string) (st : Store) : Store * Response :=
  (st, respond 200 (requestList (filter (relatedTo userId) (requests st)))).

(** [router.get('/:id')]: a specific request. *)
Definition get `{Casts} (id : string) (st : Store) : Store * Response :=
  match Mongoose.castId id with
  | Throw e => (st, respond 500 (error (MessageOf e)))
  | Ok oid =>
      match Collection.findById Request._id oid (requests st) with
      | None => (st, respond 404 (error (Text "Request not found")))
      | Some r => (st, respond 200 (request r))
      end
  end.

(** [router.put('/:id')]: update the status of a request; an accepted
    request gets its transaction. *)
Definition put `{Casts} (env : Env) (id : string) (body : Body) (st : Store)
    : Store * Response :=
  let requestId := id in
  let status := body !! "status" in
  if negb (Js.includes ["Pending"; "Accepted"; "Rejected"] status)
  then (st, respond 400 (error (Text "Invalid status")))
  else
    match Mongoose.castId requestId with
    | Throw e => (st, respond 500 (error (MessageOf e)))
    | Ok oid =>
        match Collection.findByIdAndUpdate Request._id oid
                (Request.setStatus (Js.asString status) (now env)) (requests st) with
        | None => (st, respond 404 (error (Text "Request not found")))
        | Some (coll, updatedRequest) =>
            let st1 := {| requests := coll; transactions := transactions st |} in
            if Js.strictEq status "Accepted" then
              match
                try transaction <-
                  Transaction.create (newId env) (newKey env) (now env)
                    (Some (JString requestId))
                    (Some (JString (Request.RequestedTo updatedRequest)))
                    (Some (JString (Request.BookID updatedRequest)))
                    (Some (JString "Pending"))
                    (Some (now env)) None;
                Transaction.insert transaction (transactions st1)
              with
              | Ok coll' =>
                  ({| requests := coll; transactions := coll' |},
                   respond 200 (request updatedRequest))
              | Throw e => (st1, respond 500 (error (MessageOf e)))
              end
            else (st1, respond 200 (request updatedRequest))
        end
    end.

(** [router.delete('/:id')]: delete a request. *)
Definition delete `{Casts} (id : string) (st : Store) : Store * Response :=
  match Mongoose.castId id with
  | Throw e => (st, respond 500 (error (MessageOf e)))
  | Ok oid =>
      match Collection.findByIdAndDelete Request._id oid (requests st) with
      | None => (st, respond 404 (error (Text "Request not found")))
      | Some (coll, _) =>
          ({| requests := coll; transactions := transactions st |},
           respond 200 (message "Request deleted successfully"))
      end
  end.

End RequestRoutes.

(** ** routes/transactionRoutes.js *)

Module TransactionRoutes.

(** [router.post('/')]: create a new transaction.  The object literal
    given to the constructor has the properties [ExchangeRequestID],
    [Status] and [BookReturnedDate]; the first is not a path of the
    schema, and no property is given for [RequestID], [OwnerID] or
    [BooKID]. *)
Definition post `{Casts} (env : Env) (body : Body) (st : Store)
    : Store * Response :=
  let Status := body !! "Status" in
  let BookReturnedDate := body !! "BookReturnedDate" in
  match
    try newTransaction <-
      Transaction.create (newId env) (newKey env) (now env)
        None None None Status None BookReturnedDate;
    try coll <- Transaction.insert newTransaction (transactions st);
    Ok (coll, newTransaction)
  with
  | Ok (coll, savedTransaction) =>
      ({| requests := requests st; transactions := coll |},
       respond 201 (transaction savedTransaction))
  | Throw e => (st, respond 400 (error (MessageOf e)))
  end.

(** [router.get('/request/:exchangeRequestId')]: the first transaction of
    a request, [findOne({ RequestID: exchangeRequestId })]. *)
Definition getByRequest `{Casts} (exchangeRequestId : string) (st : Store)
    : Store * Response :=
  match Mongoose.castId exchangeRequestId with
  | Throw e => (st, respond 500 (error (MessageOf e)))
  | Ok oid =>
      match list_find (fun x => Transaction.RequestID x = oid) (transactions st) with
      | None => (st, respond 404 (message "Transaction not found"))
      | Some (_, x) => (st, respond 200 (transaction x))
      end
  end.

(** [router.put('/:id')]: update a transaction's details.  The condition
    and the update are cast and the update validators run before the
    database is asked; everything thrown is answered with 400. *)
Definition put `{Casts} (id : string) (body : Body) (st : Store)
    : Store * Response :=
  match
    try oid <- Mongoose.castId id;
    try u <- Transaction.castUpdate body;
    match Collection.findById Transaction._id oid (transactions st) with
    | None => Ok None
    | Some x =>
        match Transaction.refused u x (transactions st) with
        | Some e => Throw e
        | None =>
            Ok (Collection.findByIdAndUpdate Transaction._id oid
                  (Transaction.apply u) (transactions st))
        end
    end
  with
  | Throw e => (st, respond 400 (error (MessageOf e)))
  | Ok None => (st, respond 404 (error (Text "Transaction not found")))
  | Ok (Some (coll, updatedTransaction)) =>
      ({| requests := requests st; transactions := coll |},
       respond 200 (transaction updatedTransaction))
  end.

(** [router.delete('/:id')]: delete a transaction. *)
Definition delete `{Casts} (id : string) (st : Store) : Store * Response :=
  match Mongoose.castId id with
  | Throw e => (st, respond 500 (error (MessageOf e)))
  | Ok oid =>
      match Collection.findByIdAndDelete Transaction._id oid (transactions st) with
      | None => (st, respond 404 (error (Text "Transaction not found")))
      | Some (coll, _) =>
          ({| requests := requests st; transactions := coll |},
           respond 200 (message "Transaction deleted successfully"))
      end
  end.

End TransactionRoutes.

(** ** The service as a transition system *)

(** A call of one of the routes that reach the database, with what it takes
    from the client and from the environment.  The two reading routes of
    transactions that populate their answer are left out. *)
Inductive Call : Type :=
| PostRequest (env : Env) (body : Body)
| GetRequests
| GetRequestsForUser (userId : string)
| GetRequest (id : string)
| PutRequest (env : Env) (id : string) (body : Body)
| DeleteRequest (id : string)
| PostTransaction (env : Env) (body : Body)
| GetTransactionByRequest (exchangeRequestId : string)
| PutTransaction (id : string) (body : Body)
| DeleteTransaction (id : string).

Definition handle `{Casts} (c : Call) (st : Store) : Store * Response :=
  match c with
  | PostRequest env body => RequestRoutes.post env body st
  | GetRequests => RequestRoutes.getAll st
  | GetRequestsForUser userId => RequestRoutes.getForUser userId st
  | GetRequest id => RequestRoutes.get id st
  | PutRequest env id body => RequestRoutes.put env id body st
  | DeleteRequest id => RequestRoutes.delete id st
  | PostTransaction env body => TransactionRoutes.post env body st
  | GetTransactionByRequest id => TransactionRoutes.getByRequest id st
  | PutTransaction id body => TransactionRoutes.put id body st
  | DeleteTransaction id => TransactionRoutes.delete id st
  end.

(** The states of the database the service can be in: it starts empty and
    changes only through the routes. *)
Inductive reachable `{Casts} : Store -> Prop :=
| reachable_empty : reachable emptyStore
| reachable_handle c st : reachable st -> reachable (handle c st).1.

(** A driver for examples: ObjectIds are read from strings of twenty-four
    hexadecimal digits, dates from numbers of milliseconds. *)
Module Example.

Definition hexValue (c : ascii) : option N :=
  let n := N_of_ascii c in
  if (48 <=? n)%N && (n <=? 57)%N then Some (n - 48)%N
  else if (97 <=? n)%N && (n <=? 102)%N then Some (n - 87)%N
  else if (65 <=? n)%N && (n <=? 70)%N then Some (n - 55)%N
  else None.

Fixpoint hexNumber (acc : N) (s : string) : option N :=
  match s with
  | EmptyString => Some acc
  | String c rest =>
      match hexValue c with
      | Some d => hexNumber (16 * acc + d)%N rest
      | None => None
      end
  end.

Definition casts : Casts := {|
  toObjectId v :=
    match v with
    | JString s =>
        if bool_decide (String.length s = 24%nat) then hexNumber 0 s else None
    | _ => None
    end;
  toDate v :=
    match v with
    | JNumber n => Some n
    | _ => None
    end
|}.

End Example.

(** ** Inputs the properties speak about *)

(** A property of the body that is a string and not the empty one. *)
Definition nonEmptyString (v : option JsValue) : Prop :=
  ∃ s, v = Some (JString s) ∧ s ≠ "".

(** The status of a [PUT /requests/:id] body is one the route accepts. *)
Definition acceptedStatus (v : option JsValue) : Prop :=
  ∃ s, v = Some (JString s) ∧ s ∈ ["Pending"; "Accepted"; "Rejected"].

(** The four fields the route and the API documentation call required are
    present and valid: requester and book are non-empty strings, the
    delivery method is one of the enumeration, the duration is a number
    other than 0. *)
Definition requiredFour (body : Body) : Prop :=
  nonEmptyString (body !! "RequestedBy")
  ∧ nonEmptyString (body !! "BookID")
  ∧ (∃ m, body !! "DeliveryMethod" = Some (JString m) ∧ m ∈ Request.deliveryMethods)
  ∧ (∃ n, body !! "Duration" = Some (JNumber n) ∧ n ≠ 0).

(** A body the creation of a request accepts: the four fields, the
    counterparty as a non-empty string, and negotiated terms that are
    absent or a string. *)
Definition validCreate (body : Body) : Prop :=
  requiredFour body
  ∧ nonEmptyString (body !! "RequestedTo")
  ∧ (body !! "NegotiatedTerms" = None
     ∨ ∃ s, body !! "NegotiatedTerms" = Some (JString s)).

(** The request a valid body creates. *)
Definition createdRequest (env : Env) (body : Body) : Request.t :=
  {| Request._id := newId env;
     Request.RequestID := newKey env;
     Request.RequestedBy := Js.asString (body !! "RequestedBy");
     Request.RequestedTo := Js.asString (body !! "RequestedTo");
     Request.BookID := Js.asString (body !! "BookID");
     Request.RequestDate := now env;
     Request.Status := "Pending";
     Request.DeliveryMethod := Js.asString (body !! "DeliveryMethod");
     Request.Duration := match body !! "Duration" with
                         | Some (JNumber n) => n
                         | _ => 0
                         end;
     Request.NegotiatedTerms := Some (Js.asString (body !! "NegotiatedTerms"));
     Request.createdAt := now env;
     Request.updatedAt := now env |}.

(** The transaction the acceptance of request [r] under [_id] [oid] opens. *)
Definition openedTransaction (env : Env) (oid : ObjectId) (r : Request.t)
    : Transaction.t :=
  {| Transaction._id := newId env;
     Transaction.TransactionID := Some (newKey env);
     Transaction.RequestID := oid;
     Transaction.OwnerID := Request.RequestedTo r;
     Transaction.BooKID := Request.BookID r;
     Transaction.Status := "Pending";
     Transaction.TransactionDate := Some (now env);
     Transaction.BookReturnedDate := None |}.

(** The paths of the transaction schema an update may name. *)
Definition updatePaths : list string :=
  ["TransactionID"; "RequestID"; "OwnerID"; "BooKID"; "Status";
   "TransactionDate"; "BookReturnedDate"].

(** A body for [PUT /transactions/:id] that is a plain set of fields: every
    key is one of these paths, so that none is an update operator, a dotted
    path, [_id] or the version key, and no value is an object literal.
    [Transaction.castUpdate] embeds [findByIdAndUpdate] on such bodies
    only. *)
Definition plainUpdate (body : Body) : Prop :=
  ∀ k v, body !! k = Some v -> k ∈ updatePaths ∧ ∀ props, v ≠ JObject props.

(** A call whose body, if it updates a transaction, is a plain set of
    fields. *)
Definition plainCall (c : Call) : Prop :=
  match c with
  | PutTransaction _ body => plainUpdate body
  | _ => True
  end.

(** The states reached from the empty database by such calls. *)
Inductive reachablePlain `{Casts} : Store -> Prop :=
| reachablePlain_empty : reachablePlain emptyStore
| reachablePlain_handle c st :
    plainCall c -> reachablePlain st -> reachablePlain (handle c st).1.


(** ** Sample calls *)

Module Sample.

Definition env1 : Env := {| now := 1000; newId := 1%N; newKey := 2%N |}.
Definition env2 : Env := {| now := 2000; newId := 3%N; newKey := 4%N |}.

(** The body of the scenario of the specification. *)
Definition fullBody : Body :=
  <["RequestedBy" := JString "u1"]>
    (<["RequestedTo" := JString "u2"]>
       (<["BookID" := JString "b1"]>
          (<["DeliveryMethod" := JString "In-person"]>
             (<["Duration" := JNumber 7]> ∅)))).

(** The same body without the counterparty. *)
Definition fourFields : Body := delete "RequestedTo" fullBody.

(** A request for shipping, with terms, that names no counterparty. *)
Definition noCounterparty : Body :=
  <["RequestedBy" := JString "alice"]>
    (<["BookID" := JString "isbn-42"]>
       (<["DeliveryMethod" := JString "Shipping"]>
          (<["Duration" := JNumber 14]>
             (<["NegotiatedTerms" := JString "return by post"]> ∅)))).

(** The body of the scenario with a duration of 0. *)
Definition zeroDuration : Body := <["Duration" := JNumber 0]> fullBody.

Definition status (s : string) : Body := <["status" := JString s]> ∅.

(** The [_id] of the first request, as the route parameter spells it. *)
Definition id1 : string := "000000000000000000000001".
Definition id3 : string := "000000000000000000000003".
Definition id9 : string := "000000000000000000000009".

(** One request, pending. *)
Definition store1 : Store := (RequestRoutes.post env1 fullBody emptyStore).1.

(** The request accepted and its transaction opened. *)
Definition store2 : Store :=
  (RequestRoutes.put (H := Example.casts) env2 id1 (status "Accepted") store1).1.

(** A body for [POST /transactions] that names everything the schema
    requires, and the request under both names. *)
Definition completeTransaction : Body :=
  <["RequestID" := JString id1]>
    (<["ExchangeRequestID" := JString id1]>
       (<["OwnerID" := JString "u2"]>
          (<["BooKID" := JString "b1"]> ∅))).

(** The request accepted, its transaction opened, and the request rejected
    again: the transaction of the first acceptance holds the identifiers of
    [env2]. *)
Definition taken : Store :=
  (RequestRoutes.put (H := Example.casts)
     {| now := 4000; newId := 7%N; newKey := 8%N |} id1 (status "Rejected")
     store2).1.

(** An update of a transaction that names a new owner and the date of the
    return. *)
Definition handOver : Body :=
  <["OwnerID" := JString "u9"]> (<["BookReturnedDate" := JNumber 5000]> ∅).

End Sample.

(** ** The token check in front of the routes *)

(** [authenticateToken], the middleware every route but [/auth] is mounted
    behind, in both routers. *)
Module Auth.

(** [s.split(' ')] *)
Fixpoint split (s : string) : list string :=
  match s with
  | EmptyString => [EmptyString]
  | String c rest =>
      if bool_decide (c = " "%char) then EmptyString :: split rest
      else match split rest with
           | w :: ws => String c w :: ws
           | [] => [String c EmptyString]
           end
  end.

(** [authHeader && authHeader.split(' ')[1]], where [authHeader] is
    [req.headers['authorization']]: a string, or [undefined].  The result is
    [undefined] ([None]) or a string. *)
Definition token (authHeader : option string) : option string :=
  match authHeader with
  | None => None
  | Some h => if bool_decide (h = "") then Some "" else split h !! 1%nat
  end.

(** [!token] *)
Definition missing (token : option string) : bool :=
  match token with
  | None => true
  | Some t => bool_decide (t = "")
  end.

(** A string without a space. *)
Fixpoint spaceless (s : string) : bool :=
  match s with
  | EmptyString => true
  | String c rest => negb (bool_decide (c = " "%char)) && spaceless rest
  end.

Section Auth.

(** [verify now t]: [jwt.verify(t, process.env.JWT_SECRET, ...)] calls back
    without an error at time [now]. *)
Variable verify : Z -> string -> bool.

(** The middleware: [Some] is the answer it sends, [None] is [next()]. *)
Definition authenticateToken (now : Z) (authHeader : option string)
    : option Response :=
  let token := token authHeader in
  if missing token then Some (respond 401 (message "No token provided"))
  else if verify now (default "" token) then None
  else Some (respond 403 (message "Invalid token")).

(** A route mounted as [router.METHOD(path, authenticateToken, handler)]. *)
Definition guarded `{Casts} (now : Z) (authHeader : option string) (c : Call)
    (st : Store) : Store * Response :=
  match authenticateToken now authHeader with
  | Some res => (st, res)
  | None => handle c st
  end.

End Auth.
End Auth.

(** ** Listing the transactions *)

(** [router.get('/')] of the transactions:
    [Transaction.find().populate('RequestID', 'RequestID RequestedBy BookID')]. *)
Module Listing.

(** The fields of a request the population selects, with its [_id]. *)
Record Populated := {
  _id : ObjectId;
  RequestID : ObjectId;
  RequestedBy : string;
  BookID : string
}.

Definition select (r : Request.t) : Populated :=
  {| _id := Request._id r; RequestID := Request.RequestID r;
     RequestedBy := Request.RequestedBy r; BookID := Request.BookID r |}.

(** A transaction as listed: its [RequestID] is replaced by the selected
    fields of the request with that [_id], or by [null] when there is none. *)
Definition populate (reqs : list Request.t) (x : Transaction.t)
    : Transaction.t * option Populated :=
  (x, select <$> Collection.findById Request._id (Transaction.RequestID x) reqs).

(** The route: status code and the populated transactions. *)
Definition getAll (st : Store)
    : Store * (nat * list (Transaction.t * option Populated)) :=
  (st, (200%nat, populate (requests st) <$> transactions st)).

End Listing.

(** ** States the properties speak about *)

(** No two stored documents share an [_id], no two requests a [RequestID],
    no two transactions a [TransactionID]. *)
Definition uniqueIds (st : Store) : Prop :=
  NoDup (Request._id <$> requests st)
  ∧ NoDup (Request.RequestID <$> requests st)
  ∧ NoDup (Transaction._id <$> transactions st)
  ∧ NoDup (Transaction.TransactionID <$> transactions st).

(** What the schema asks of the strings of a stored transaction. *)
Definition validTransaction (x : Transaction.t) : Prop :=
  Transaction.OwnerID x ≠ "" ∧ Transaction.BooKID x ≠ ""
  ∧ Transaction.Status x ∈ Transaction.statuses.

(** The six properties of the body [POST /requests] reads. *)
Definition requestFields : list string :=
  ["RequestedBy"; "BookID"; "DeliveryMethod"; "Duration"; "NegotiatedTerms";
   "RequestedTo"].

(** A token check for examples: one token is good, at any time. *)
Definition sampleVerify (now : Z) (t : string) : bool :=
  bool_decide (t = "good-token").

(** * Properties *)

(** ** Collections *)

Section CollectionFacts.

Context {Doc : Type} (idOf : Doc -> ObjectId).

Lemma findById_elem id coll d :
  Collection.findById idOf id coll = Some d -> d ∈ coll ∧ idOf d = id.
Proof.
  induction coll as [|d0 rest IH]; simpl; [done|].
  case_bool_decide as Hid.
  - intros [= ->]. split; [left | done].
  - intros Hf. destruct (IH Hf) as [Hin Heq]. split; [by right | done].
Qed.

Lemma findByIdAndUpdate_None id update coll :
  Collection.findById idOf id coll = None ->
  Collection.findByIdAndUpdate idOf id update coll = None.
Proof.
  induction coll as [|d0 rest IH]; simpl; [done|].
  case_bool_decide; [done|]. intros Hf. by rewrite (IH Hf).
Qed.

Lemma findByIdAndUpdate_Some id update coll d :
  Collection.findById idOf id coll = Some d ->
  ∃ coll', Collection.findByIdAndUpdate idOf id update coll = Some (coll', update d).
Proof.
  induction coll as [|d0 rest IH]; simpl; [done|].
  case_bool_decide.
  - intros [= ->]. eauto.
  - intros Hf. destruct (IH Hf) as [coll' ->]. eauto.
Qed.

Lemma findByIdAndUpdate_found id update coll coll' d' :
  Collection.findByIdAndUpdate idOf id update coll = Some (coll', d') ->
  ∃ d, Collection.findById idOf id coll = Some d ∧ d' = update d.
Proof.
  revert coll'. induction coll as [|d0 rest IH]; simpl; intros coll'; [done|].
  case_bool_decide.
  - intros [= <- <-]. eauto.
  - destruct (Collection.findByIdAndUpdate idOf id update rest) as [[rest' d1]|] eqn:E;
      [|done].
    intros [= <- <-]. by apply (IH rest').
Qed.

(** After the update the document is found under its [_id], updated. *)
Lemma findById_updated id update coll coll' d' :
  (∀ d, idOf (update d) = idOf d) ->
  Collection.findByIdAndUpdate idOf id update coll = Some (coll', d') ->
  Collection.findById idOf id coll' = Some d'.
Proof.
  intros Hid. revert coll'. induction coll as [|d0 rest IH]; simpl; intros coll'; [done|].
  case_bool_decide as Hd.
  - intros [= <- <-]. simpl. rewrite Hid. by rewrite bool_decide_eq_true_2.
  - destruct (Collection.findByIdAndUpdate idOf id update rest) as [[rest' d1]|] eqn:E;
      [|done].
    intros [= <- <-]. simpl. rewrite bool_decide_eq_false_2; [|done].
    by apply (IH rest').
Qed.

(** An update keeps what holds of every document and is kept by it. *)
Lemma findByIdAndUpdate_Forall (P : Doc -> Prop) id update coll coll' d' :
  (∀ d, P d -> P (update d)) ->
  Forall P coll ->
  Collection.findByIdAndUpdate idOf id update coll = Some (coll', d') ->
  Forall P coll'.
Proof.
  intros Hupd. revert coll'. induction coll as [|d0 rest IH]; simpl; intros coll' HP; [done|].
  apply Forall_cons_1 in HP as [HP0 HP].
  case_bool_decide.
  - intros [= <- <-]. apply Forall_cons_2; auto.
  - destruct (Collection.findByIdAndUpdate idOf id update rest) as [[rest' d1]|] eqn:E;
      [|done].
    intros [= <- <-]. apply Forall_cons_2; [done|]. by apply (IH rest').
Qed.

Lemma findByIdAndDelete_Forall (P : Doc -> Prop) id coll coll' d' :
  Forall P coll ->
  Collection.findByIdAndDelete idOf id coll = Some (coll', d') ->
  Forall P coll'.
Proof.
  revert coll'. induction coll as [|d0 rest IH]; simpl; intros coll' HP; [done|].
  apply Forall_cons_1 in HP as [HP0 HP].
  case_bool_decide.
  - by intros [= <- <-].
  - destruct (Collection.findByIdAndDelete idOf id rest) as [[rest' d1]|] eqn:E;
      [|done].
    intros [= <- <-]. apply Forall_cons_2; [done|]. by apply (IH rest').
Qed.

End CollectionFacts.

(** ** Creating a request *)

(** Membership in a list of literals, and its refutation. *)
Ltac in_literals := repeat first [apply list_elem_of_here | apply list_elem_of_further].

Ltac not_in_literals H :=
  repeat (apply elem_of_cons in H as [H|H]; [discriminate H|]);
  by apply elem_of_nil in H.

Lemma deliveryMethod_nonEmpty m : m ∈ Request.deliveryMethods -> m ≠ "".
Proof. intros H ->. not_in_literals H. Qed.

Ltac unbind :=
  repeat match goal with
         | H : Mongoose.validated ?r = Ok _ |- _ =>
             let E := fresh "E" in
             destruct r eqn:E; simpl in H; [injection H as H|discriminate H]
         | H : bind ?e _ = Ok _ |- _ =>
             let E := fresh "E" in
             destruct e eqn:E; simpl in H; [|discriminate H]
         end.

Lemma requiredString_Ok o s :
  Mongoose.requiredString o = Ok s -> o = Some s ∧ s ≠ "".
Proof.
  destruct o as [s'|]; simpl; [|done].
  case_bool_decide; [done|]. by intros [= <-].
Qed.

Lemma enum_Ok values s s' :
  Mongoose.enum values s = Ok s' -> s' = s ∧ s ∈ values.
Proof. unfold Mongoose.enum. case_bool_decide; [|done]. by intros [= <-]. Qed.

Lemma enum_elem values s : s ∈ values -> Mongoose.enum values s = Ok s.
Proof. intros Hs. unfold Mongoose.enum. by rewrite bool_decide_eq_true_2. Qed.

Lemma requiredString_nonEmpty s :
  s ≠ "" -> Mongoose.requiredString (Some s) = Ok s.
Proof. intros Hs. simpl. by rewrite bool_decide_eq_false_2. Qed.

(** A created request satisfies its schema and carries the given status,
    identifiers and dates. *)
Lemma create_request_valid id key now rby rto book date status dm dur terms r :
  Request.create id key now rby rto book date status dm dur terms = Ok r ->
  Request.valid r ∧ Request.Status r = status ∧ Request._id r = id
  ∧ Request.RequestID r = key.
Proof.
  unfold Request.create. intros H. unbind.
  match goal with H : Ok _ = Ok _ |- _ => injection H as <- end.
  repeat match goal with
         | E : Mongoose.requiredString _ = Ok _ |- _ =>
             apply requiredString_Ok in E as [? ?]
         | E : Mongoose.enum _ _ = Ok _ |- _ => apply enum_Ok in E as [? ?]
         end.
  subst. unfold Request.valid. simpl. done.
Qed.

Lemma truthy_nonEmptyString v : nonEmptyString v -> Js.truthy v = true.
Proof.
  intros (s & -> & Hs). simpl. by rewrite bool_decide_eq_false_2.
Qed.

Lemma create_request_Ok env body :
  validCreate body ->
  Request.create (newId env) (newKey env) (now env)
    (body !! "RequestedBy") (body !! "RequestedTo") (body !! "BookID")
    (now env) "Pending"
    (body !! "DeliveryMethod") (body !! "Duration") (body !! "NegotiatedTerms")
  = Ok (createdRequest env body).
Proof.
  intros (((s1 & E1 & H1) & (s2 & E2 & H2) & (m & E3 & H3) & (n & E4 & H4))
          & (s5 & E5 & H5) & Hterms).
  unfold Request.create, createdRequest. rewrite E1, E2, E3, E4, E5. simpl.
  pose proof (deliveryMethod_nonEmpty m H3) as Hm.
  rewrite !bool_decide_eq_false_2 by done. simpl.
  rewrite (enum_elem _ _ H3). simpl.
  destruct Hterms as [-> | (t & ->)]; reflexivity.
Qed.

Lemma insert_request_fresh r coll :
  Request.fresh (Request._id r) (Request.RequestID r) coll ->
  Request.insert r coll = Ok (coll ++ [r]).
Proof.
  intros Hf. unfold Request.insert. rewrite bool_decide_eq_false_2; [done|].
  rewrite list.Exists_exists. intros (r' & Hin & Hdup).
  unfold Request.fresh in Hf. rewrite list.Forall_forall in Hf.
  destruct (Hf r' Hin) as [Hid Hkey]. destruct Hdup; contradiction.
Qed.

Lemma insert_request_Ok r coll coll' :
  Request.insert r coll = Ok coll' -> coll' = coll ++ [r].
Proof. unfold Request.insert. case_bool_decide; [done|]. by intros [= <-]. Qed.

Lemma hexDigits_length k n acc :
  String.length (Mongoose.hexDigits k n acc) = (k + String.length acc)%nat.
Proof.
  revert n acc. induction k as [|k IH]; intros n acc; simpl; [done|].
  rewrite IH. simpl. lia.
Qed.

Lemma toHexString_length id : String.length (Mongoose.toHexString id) = 24%nat.
Proof. unfold Mongoose.toHexString. by rewrite hexDigits_length. Qed.

Lemma post_request_missing env body st :
  Js.truthy (body !! "RequestedBy") = false
  ∨ Js.truthy (body !! "BookID") = false
  ∨ Js.truthy (body !! "DeliveryMethod") = false
  ∨ Js.truthy (body !! "Duration") = false ->
  RequestRoutes.post env body st
  = (st, respond 400 (error (Text "All required fields must be provided"))).
Proof.
  intros H. unfold RequestRoutes.post.
  destruct H as [-> | [-> | [-> | ->]]]; simpl;
    rewrite ?orb_true_r; reflexivity.
Qed.

(** Whatever [POST /requests] answers, the stored requests are the old ones,
    or the old ones followed by one new request that satisfies its schema
    and is pending. *)
Lemma post_request_requests env body st :
  requests (RequestRoutes.post env body st).1 = requests st
  ∨ ∃ r, requests (RequestRoutes.post env body st).1 = requests st ++ [r]
         ∧ Request.valid r ∧ Request.Status r = "Pending".
Proof.
  unfold RequestRoutes.post.
  destruct (_ || _); [by left|].
  destruct (Request.create _ _ _ _ _ _ _ _ _ _ _) as [r|e] eqn:E; simpl; [|by left].
  destruct (Request.insert r (requests st)) as [coll|e] eqn:Ei; simpl; [|by left].
  right. exists r. apply insert_request_Ok in Ei as ->.
  apply create_request_valid in E as (Hv & Hs & _). done.
Qed.

Lemma post_request_transactions env body st :
  transactions (RequestRoutes.post env body st).1 = transactions st.
Proof.
  unfold RequestRoutes.post.
  destruct (_ || _); [done|].
  destruct (bind _ _) as [[coll r]|e]; done.
Qed.

(** A body in which requester, counterparty, book, delivery method and
    duration are present and valid, and the negotiated terms absent or a
    string, creates a request when the generated identifiers are unused: the answer is 201 with the stored record, which is pending,
    carries the generated identifier, whose hexadecimal form is not empty,
    and the clock of the server as its dates.  A body in which requester,
    book, delivery method or duration is absent is answered with 400 and
    nothing is stored. *)
Theorem post_request_creates_pending env body st :
  (validCreate body ->
   Request.fresh (newId env) (newKey env) (requests st) ->
   let r := createdRequest env body in
   RequestRoutes.post env body st
   = ({| requests := requests st ++ [r]; transactions := transactions st |},
      respond 201 (created "Exchange request created successfully." r))
   ∧ Request.Status r = "Pending"
   ∧ Request._id r = newId env
   ∧ Mongoose.toHexString (Request._id r) ≠ ""
   ∧ Request.RequestDate r = now env
   ∧ Request.createdAt r = now env)
  ∧ (body !! "RequestedBy" = None ∨ body !! "BookID" = None
     ∨ body !! "DeliveryMethod" = None ∨ body !! "Duration" = None ->
     RequestRoutes.post env body st
     = (st, respond 400 (error (Text "All required fields must be provided")))).
Proof.
  split.
  - intros Hvalid Hfresh r. split; [|split; [done|split; [done|split; [|done]]]].
    + pose proof Hvalid as ((H1 & H2 & (m & E3 & H3) & (n & E4 & H4)) & _).
      unfold RequestRoutes.post.
      rewrite (truthy_nonEmptyString _ H1), (truthy_nonEmptyString _ H2).
      rewrite E3, E4. simpl.
      rewrite (bool_decide_eq_false_2 _ (deliveryMethod_nonEmpty m H3)).
      assert ((n =? 0) = false) as -> by lia. simpl.
      rewrite <- E3, <- E4. rewrite (create_request_Ok env body Hvalid). simpl.
      rewrite insert_request_fresh by done. reflexivity.
    + intros Hempty. pose proof (toHexString_length (Request._id r)) as Hlen.
      rewrite Hempty in Hlen. discriminate Hlen.
  - intros H. apply post_request_missing.
    destruct H as [-> | [-> | [-> | ->]]]; auto.
Qed.

Lemma post_request_creates_pending_witness :
  RequestRoutes.post Sample.env1 Sample.fullBody emptyStore
  = ({| requests := [createdRequest Sample.env1 Sample.fullBody];
        transactions := [] |},
     respond 201 (created "Exchange request created successfully."
                    (createdRequest Sample.env1 Sample.fullBody)))
  ∧ RequestRoutes.post Sample.env1 (delete "Duration" Sample.fullBody) emptyStore
    = (emptyStore, respond 400 (error (Text "All required fields must be provided"))).
Proof.
  split.
  - apply (proj1 (post_request_creates_pending Sample.env1 Sample.fullBody emptyStore)).
    + repeat split; try (eexists; split; [vm_compute; reflexivity|]);
        try discriminate; try in_literals.
      left. vm_compute. reflexivity.
    + constructor.
  - apply (proj2 (post_request_creates_pending Sample.env1
                    (delete "Duration" Sample.fullBody) emptyStore)).
    right. right. right. vm_compute. reflexivity.
Defined.

(** C4 (the code at the failing input).  The body names requester, book,
    delivery method and duration, all valid, as the documentation of the
    route and its guard of the required fields ask, and the generated
    identifiers are unused; yet nothing is created: [save()] refuses the
    document because the schema requires [RequestedTo], and the answer is
    400. *)
Lemma post_request_four_fields_rejected :
  requiredFour Sample.fourFields
  ∧ Request.fresh (newId Sample.env1) (newKey Sample.env1) (requests emptyStore)
  ∧ RequestRoutes.post Sample.env1 Sample.fourFields emptyStore
    = (emptyStore, respond 400 (error (MessageOf ValidationError))).
Proof.
  split; [|split; [constructor | vm_compute; reflexivity]].
  repeat split; try (eexists; split; [vm_compute; reflexivity|]);
    try discriminate; in_literals.
Qed.

Lemma create_request_no_counterparty id key now rby book date status dm dur terms :
  Request.create id key now rby None book date status dm dur terms
  = Throw ValidationError.
Proof.
  unfold Request.create.
  destruct (Mongoose.path Mongoose.castString None rby) as [o|]; simpl; [|done].
  destruct (Mongoose.requiredString o); simpl; done.
Qed.

(** A body that names no counterparty creates nothing: the answer is 400,
    and when requester, book, delivery method and duration are present and
    valid it is the validation error of the schema, in which [RequestedTo]
    is required. *)
Theorem post_request_requires_counterparty env body st :
  body !! "RequestedTo" = None ->
  (∃ e, RequestRoutes.post env body st = (st, respond 400 (error e)))
  ∧ (requiredFour body ->
     RequestRoutes.post env body st
     = (st, respond 400 (error (MessageOf ValidationError)))).
Proof.
  intros Hto. unfold RequestRoutes.post. rewrite Hto.
  rewrite create_request_no_counterparty. simpl. split.
  - destruct (_ || _); eauto.
  - intros (H1 & H2 & (m & E3 & H3) & (n & E4 & H4)).
    rewrite (truthy_nonEmptyString _ H1), (truthy_nonEmptyString _ H2).
    rewrite E3, E4. simpl.
    rewrite (bool_decide_eq_false_2 _ (deliveryMethod_nonEmpty m H3)).
    assert ((n =? 0) = false) as -> by lia. reflexivity.
Qed.

Lemma post_request_requires_counterparty_witness :
  (∃ e, RequestRoutes.post Sample.env1 Sample.noCounterparty emptyStore
        = (emptyStore, respond 400 (error e)))
  ∧ RequestRoutes.post Sample.env1 Sample.noCounterparty emptyStore
    = (emptyStore, respond 400 (error (MessageOf ValidationError))).
Proof.
  destruct (post_request_requires_counterparty Sample.env1 Sample.noCounterparty
              emptyStore) as [H1 H2].
  - vm_compute. reflexivity.
  - split; [exact H1|]. apply H2.
    repeat split; try (eexists; split; [vm_compute; reflexivity|]);
      try discriminate; in_literals.
Defined.

(** C5 (the code at the failing input).  Requester, book, delivery method
    and duration are present and valid and the counterparty, which the
    documentation of the route does not list as required, is omitted: the
    request is refused with 400 and nothing is stored. *)
Lemma post_request_without_counterparty_rejected :
  Sample.noCounterparty !! "RequestedTo" = None
  ∧ requiredFour Sample.noCounterparty
  ∧ code (RequestRoutes.post Sample.env1 Sample.noCounterparty emptyStore).2 = 400%nat
  ∧ (RequestRoutes.post Sample.env1 Sample.noCounterparty emptyStore).1 = emptyStore.
Proof.
  split; [vm_compute; reflexivity|].
  split; [|split; vm_compute; reflexivity].
  repeat split; try (eexists; split; [vm_compute; reflexivity|]);
    try discriminate; in_literals.
Qed.

(** C9.  The check of the required fields is a check of truthiness: a
    duration that is the number 0, and a requester, book or delivery method
    that is the empty string, are answered like a missing field, with 400
    and nothing stored. *)
Theorem post_request_rejects_falsy env body st :
  body !! "Duration" = Some (JNumber 0)
  ∨ body !! "RequestedBy" = Some (JString "")
  ∨ body !! "BookID" = Some (JString "")
  ∨ body !! "DeliveryMethod" = Some (JString "") ->
  RequestRoutes.post env body st
  = (st, respond 400 (error (Text "All required fields must be provided"))).
Proof.
  intros H. apply post_request_missing.
  destruct H as [-> | [-> | [-> | ->]]]; auto.
Qed.

Lemma post_request_rejects_falsy_witness :
  Sample.zeroDuration !! "Duration" = Some (JNumber 0)
  ∧ RequestRoutes.post Sample.env1 Sample.zeroDuration emptyStore
    = (emptyStore, respond 400 (error (Text "All required fields must be provided"))).
Proof.
  split; [vm_compute; reflexivity|].
  apply (post_request_rejects_falsy Sample.env1 Sample.zeroDuration emptyStore).
  left. vm_compute. reflexivity.
Defined.

(** ** Listing the requests of a user *)

(** C6.  [GET /requests/user/:userId] answers 200 with the stored requests
    whose requester or counterparty is the user, each as often as it is
    stored and in the stored order, and with no other. *)
Theorem getForUser_exact userId st :
  ∃ l, RequestRoutes.getForUser userId st = (st, respond 200 (requestList l))
       ∧ (∀ r, r ∈ l ↔ r ∈ requests st
                        ∧ (Request.RequestedBy r = userId
                           ∨ Request.RequestedTo r = userId))
       ∧ l = filter (RequestRoutes.relatedTo userId) (requests st)
       ∧ sublist l (requests st).
Proof.
  exists (filter (RequestRoutes.relatedTo userId) (requests st)).
  split; [reflexivity|]. split; [|split; [reflexivity|apply sublist_filter]].
  intros r. rewrite list_elem_of_filter. unfold RequestRoutes.relatedTo. tauto.
Qed.

(** ** Updating the status of a request *)

Lemma includes_acceptedStatus v :
  Js.includes ["Pending"; "Accepted"; "Rejected"] v = true <-> acceptedStatus v.
Proof.
  unfold acceptedStatus. split.
  - destruct v as [[| | |s| |]|]; simpl; try discriminate.
    intros Hs. apply bool_decide_eq_true_1 in Hs. eauto.
  - intros (s & -> & Hs). simpl. by apply bool_decide_eq_true_2.
Qed.

Lemma includes_not_accepted v :
  ¬ acceptedStatus v -> Js.includes ["Pending"; "Accepted"; "Rejected"] v = false.
Proof.
  intros Hn. apply not_true_is_false. by rewrite includes_acceptedStatus.
Qed.

Lemma put_request_invalid `{Casts} env id body st :
  ¬ acceptedStatus (body !! "status") ->
  RequestRoutes.put env id body st = (st, respond 400 (error (Text "Invalid status"))).
Proof.
  intros Hn. unfold RequestRoutes.put. by rewrite (includes_not_accepted _ Hn).
Qed.

(** C3.  For every route parameter and every body whose status is not one
    of Pending, Accepted and Rejected (or is missing, or is no string),
    [PUT /requests/:id] answers 400 and the database, the addressed request
    included, is what it was. *)
Theorem put_request_invalid_status `{Casts} env id body st :
  ¬ acceptedStatus (body !! "status") ->
  RequestRoutes.put env id body st = (st, respond 400 (error (Text "Invalid status")))
  ∧ code (RequestRoutes.put env id body st).2 = 400%nat
  ∧ requests (RequestRoutes.put env id body st).1 = requests st.
Proof.
  intros Hn. rewrite (put_request_invalid env id body st Hn). done.
Qed.

Lemma put_request_invalid_status_witness :
  RequestRoutes.put (H := Example.casts) Sample.env2 Sample.id1
    (Sample.status "Bogus") Sample.store1
  = (Sample.store1, respond 400 (error (Text "Invalid status")))
  ∧ code (RequestRoutes.put (H := Example.casts) Sample.env2 Sample.id1
            (Sample.status "Bogus") Sample.store1).2 = 400%nat
  ∧ requests (RequestRoutes.put (H := Example.casts) Sample.env2 Sample.id1
                (Sample.status "Bogus") Sample.store1).1 = requests Sample.store1.
Proof.
  apply (put_request_invalid_status (H := Example.casts)).
  intros (s & Hs & Hin). vm_compute in Hs. injection Hs as <-.
  not_in_literals Hin.
Defined.

(** C10.  When the route parameter resolves to no stored request, a status
    that is not accepted is answered with 400; 404 is answered only when the
    status is accepted, and is answered then whenever the parameter is a
    well-formed identifier. *)
Theorem put_request_validates_first `{Casts} env id body st :
  (∀ oid, toObjectId (JString id) = Some oid ->
          Collection.findById Request._id oid (requests st) = None) ->
  (¬ acceptedStatus (body !! "status") ->
   RequestRoutes.put env id body st
   = (st, respond 400 (error (Text "Invalid status"))))
  ∧ (code (RequestRoutes.put env id body st).2 = 404%nat ->
     acceptedStatus (body !! "status"))
  ∧ (acceptedStatus (body !! "status") ->
     is_Some (toObjectId (JString id)) ->
     RequestRoutes.put env id body st
     = (st, respond 404 (error (Text "Request not found")))).
Proof.
  intros Hnone. split; [apply put_request_invalid|]. split.
  - intros Hcode. apply includes_acceptedStatus.
    destruct (Js.includes _ (body !! "status")) eqn:E; [done|].
    unfold RequestRoutes.put in Hcode. rewrite E in Hcode. discriminate Hcode.
  - intros Hs [oid Hoid]. unfold RequestRoutes.put.
    apply includes_acceptedStatus in Hs as ->. simpl.
    unfold Mongoose.castId. rewrite Hoid.
    by rewrite (findByIdAndUpdate_None _ _ _ _ (Hnone oid Hoid)).
Qed.

Lemma put_request_validates_first_witness :
  RequestRoutes.put (H := Example.casts) Sample.env2 Sample.id9
    (Sample.status "Bogus") Sample.store1
  = (Sample.store1, respond 400 (error (Text "Invalid status")))
  ∧ RequestRoutes.put (H := Example.casts) Sample.env2 Sample.id9
      (Sample.status "Rejected") Sample.store1
    = (Sample.store1, respond 404 (error (Text "Request not found"))).
Proof.
  assert (∀ oid, toObjectId (Casts := Example.casts) (JString Sample.id9) = Some oid ->
                 Collection.findById Request._id oid (requests Sample.store1) = None)
    as Hnone.
  { intros oid Hoid. vm_compute in Hoid. injection Hoid as <-.
    vm_compute. reflexivity. }
  split.
  - apply (put_request_validates_first (H := Example.casts) Sample.env2 Sample.id9
             (Sample.status "Bogus") Sample.store1 Hnone).
    intros (s & Hs & Hin). vm_compute in Hs. injection Hs as <-.
    not_in_literals Hin.
  - apply (put_request_validates_first (H := Example.casts) Sample.env2 Sample.id9
             (Sample.status "Rejected") Sample.store1 Hnone).
    + exists "Rejected". split; [vm_compute; reflexivity | in_literals].
    + vm_compute. eauto.
Defined.

Lemma acceptedStatus_enumerated v :
  acceptedStatus v -> Js.asString v ∈ Request.statuses.
Proof.
  intros (s & -> & Hs). simpl. unfold Request.statuses.
  repeat (apply elem_of_cons in Hs as [->|Hs]; [in_literals|]).
  by apply elem_of_nil in Hs.
Qed.

Lemma setStatus_valid s now r :
  s ∈ Request.statuses -> Request.valid r -> Request.valid (Request.setStatus s now r).
Proof. intros Hs (H1 & H2 & H3 & _ & H5). unfold Request.valid. simpl. done. Qed.

(** What [PUT /requests/:id] does to the stored requests: nothing, or the
    status of one of them becomes Pending, Accepted or Rejected. *)
Lemma put_request_requests `{Casts} (P : Request.t -> Prop) env id body st :
  (∀ s now r, s ∈ ["Pending"; "Accepted"; "Rejected"] -> P r ->
              P (Request.setStatus s now r)) ->
  Forall P (requests st) ->
  Forall P (requests (RequestRoutes.put env id body st).1).
Proof.
  intros Hset HP. unfold RequestRoutes.put.
  destruct (Js.includes _ (body !! "status")) eqn:Hinc; simpl; [|done].
  apply includes_acceptedStatus in Hinc as (s & Es & Hs). rewrite Es. simpl.
  destruct (Mongoose.castId id) as [oid|e]; simpl; [|done].
  destruct (Collection.findByIdAndUpdate _ _ _ _) as [[coll r']|] eqn:Hupd; [|done].
  assert (Forall P coll) as Hcoll.
  { eapply findByIdAndUpdate_Forall; [|exact HP|exact Hupd]. intros d. by apply Hset. }
  destruct (bool_decide (s = "Accepted")); [|done].
  destruct (bind _ _); done.
Qed.

Lemma delete_request_requests `{Casts} (P : Request.t -> Prop) id st :
  Forall P (requests st) ->
  Forall P (requests (RequestRoutes.delete id st).1).
Proof.
  intros HP. unfold RequestRoutes.delete.
  destruct (Mongoose.castId id) as [oid|e]; simpl; [|done].
  destruct (Collection.findByIdAndDelete _ _ _) as [[coll d]|] eqn:Hdel; [|done].
  simpl. eapply findByIdAndDelete_Forall; eauto.
Qed.

(** The routes of transactions leave the requests alone. *)
Lemma transaction_routes_requests `{Casts} c st :
  match c with
  | PostTransaction _ _ | GetTransactionByRequest _
  | PutTransaction _ _ | DeleteTransaction _ => True
  | _ => False
  end ->
  requests (handle c st).1 = requests st.
Proof.
  destruct c; intros Hc; try (exfalso; exact Hc); cbn [handle].
  - unfold TransactionRoutes.post. destruct (bind _ _) as [[coll x]|e]; done.
  - unfold TransactionRoutes.getByRequest.
    destruct (Mongoose.castId _); [|done]. destruct (list_find _ _) as [[i x]|]; done.
  - unfold TransactionRoutes.put. destruct (bind _ _) as [[[coll x]|]|e]; done.
  - unfold TransactionRoutes.delete.
    destruct (Mongoose.castId _); [|done].
    destruct (Collection.findByIdAndDelete _ _ _) as [[coll x]|]; done.
Qed.

(** A property of stored requests that creation establishes and the update
    of the status keeps holds of every request after every call. *)
Lemma handle_requests `{Casts} (P : Request.t -> Prop) c st :
  (∀ r, Request.valid r -> Request.Status r = "Pending" -> P r) ->
  (∀ s now r, s ∈ ["Pending"; "Accepted"; "Rejected"] -> P r ->
              P (Request.setStatus s now r)) ->
  Forall P (requests st) ->
  Forall P (requests (handle c st).1).
Proof.
  intros Hnew Hset HP.
  destruct c; try (rewrite transaction_routes_requests; done).
  - simpl. destruct (post_request_requests env body st) as [-> | (r & -> & Hv & Hs)];
      [done|].
    apply Forall_app_2; [done|]. apply Forall_cons_2; [by apply Hnew | constructor].
  - done.
  - done.
  - simpl. unfold RequestRoutes.get. destruct (Mongoose.castId _); [|done].
    destruct (Collection.findById _ _ _); done.
  - by apply put_request_requests.
  - by apply delete_request_requests.
Qed.

(** Every stored request of a reachable state satisfies its schema. *)
Lemma reachable_valid `{Casts} st :
  reachable st -> Forall Request.valid (requests st).
Proof.
  induction 1 as [|c st Hr IH]; [constructor|].
  apply handle_requests; [done| |done].
  intros s now r Hs. apply setStatus_valid.
  unfold Request.statuses.
  repeat (apply elem_of_cons in Hs as [->|Hs]; [in_literals|]).
  by apply elem_of_nil in Hs.
Qed.

(** C8.  In every reachable state the status of every stored request is one
    of Pending, Accepted, Rejected and Modified; and every call keeps it so
    from any state in which it is so: creation stores Pending, the update
    of the status stores one of Pending, Accepted and Rejected, and no other
    route writes a request. *)
Theorem request_status_enumerated `{Casts} :
  (∀ st, reachable st ->
         Forall (fun r => Request.Status r ∈ Request.statuses) (requests st))
  ∧ (∀ c st,
       Forall (fun r => Request.Status r ∈ Request.statuses) (requests st) ->
       Forall (fun r => Request.Status r ∈ Request.statuses) (requests (handle c st).1)).
Proof.
  assert (∀ c st,
            Forall (fun r => Request.Status r ∈ Request.statuses) (requests st) ->
            Forall (fun r => Request.Status r ∈ Request.statuses)
              (requests (handle c st).1)) as Hstep.
  { intros c st. apply handle_requests.
    - intros r _ ->. in_literals.
    - intros s now r Hs _. simpl. unfold Request.statuses.
      repeat (apply elem_of_cons in Hs as [->|Hs]; [in_literals|]).
      by apply elem_of_nil in Hs. }
  split; [|exact Hstep].
  induction 1 as [|c st Hr IH]; [constructor|]. by apply Hstep.
Qed.

Lemma request_status_enumerated_witness :
  Forall (fun r => Request.Status r ∈ Request.statuses) (requests Sample.store2).
Proof.
  apply (proj1 (request_status_enumerated (H := Example.casts))).
  apply (reachable_handle (H := Example.casts)
           (PutRequest Sample.env2 Sample.id1 (Sample.status "Accepted"))).
  apply (reachable_handle (H := Example.casts)
           (PostRequest Sample.env1 Sample.fullBody)).
  apply reachable_empty.
Defined.

(** ** Accepting a request *)

Lemma create_transaction_accepted `{Casts} env id oid owner book :
  toObjectId (JString id) = Some oid ->
  owner ≠ "" -> book ≠ "" ->
  Transaction.create (newId env) (newKey env) (now env)
    (Some (JString id)) (Some (JString owner)) (Some (JString book))
    (Some (JString "Pending")) (Some (now env)) None
  = Ok {| Transaction._id := newId env;
          Transaction.TransactionID := Some (newKey env);
          Transaction.RequestID := oid;
          Transaction.OwnerID := owner;
          Transaction.BooKID := book;
          Transaction.Status := "Pending";
          Transaction.TransactionDate := Some (now env);
          Transaction.BookReturnedDate := None |}.
Proof.
  intros Hoid Howner Hbook. unfold Transaction.create. simpl. rewrite Hoid. simpl.
  rewrite !bool_decide_eq_false_2 by done. reflexivity.
Qed.

Lemma insert_transaction_fresh x key coll :
  Transaction.fresh (Transaction._id x) key coll ->
  Transaction.TransactionID x = Some key ->
  Transaction.insert x coll = Ok (coll ++ [x]).
Proof.
  intros Hf Hkey. unfold Transaction.insert.
  rewrite bool_decide_eq_false_2; [done|].
  rewrite list.Exists_exists. intros (x' & Hin & Hdup).
  unfold Transaction.fresh in Hf. rewrite list.Forall_forall in Hf.
  destruct (Hf x' Hin) as [Hid Hk]. rewrite Hkey in Hdup.
  destruct Hdup; contradiction.
Qed.

(** C1.  In a reachable state, [PUT /requests/:id] with the status Accepted
    on an existing request answers 200 with the updated request and adds
    exactly one transaction, which refers to the request, is owned by its
    counterparty, is about its book and is pending, provided the identifiers
    generated for the transaction are unused.  The request that is answered,
    and stored under the identifier, has the status Accepted and the clock
    as [updatedAt], and is the old request in every other field. *)
Theorem accept_opens_transaction `{Casts} env id oid body st r :
  reachable st ->
  toObjectId (JString id) = Some oid ->
  Collection.findById Request._id oid (requests st) = Some r ->
  body !! "status" = Some (JString "Accepted") ->
  Transaction.fresh (newId env) (newKey env) (transactions st) ->
  let r' := Request.setStatus "Accepted" (now env) r in
  let x := openedTransaction env oid r in
  (∃ coll,
     RequestRoutes.put env id body st
     = ({| requests := coll; transactions := transactions st ++ [x] |},
        respond 200 (request r'))
     ∧ Collection.findById Request._id oid coll = Some r')
  ∧ Transaction.RequestID x = oid
  ∧ Transaction.OwnerID x = Request.RequestedTo r
  ∧ Transaction.BooKID x = Request.BookID r
  ∧ Transaction.Status x = "Pending"
  ∧ Request.Status r' = "Accepted"
  ∧ Request.updatedAt r' = now env
  ∧ Request._id r' = Request._id r
  ∧ Request.RequestID r' = Request.RequestID r
  ∧ Request.RequestedBy r' = Request.RequestedBy r
  ∧ Request.RequestedTo r' = Request.RequestedTo r
  ∧ Request.BookID r' = Request.BookID r
  ∧ Request.RequestDate r' = Request.RequestDate r
  ∧ Request.DeliveryMethod r' = Request.DeliveryMethod r
  ∧ Request.Duration r' = Request.Duration r
  ∧ Request.NegotiatedTerms r' = Request.NegotiatedTerms r
  ∧ Request.createdAt r' = Request.createdAt r.
Proof.
  intros Hreach Hoid Hfind Hstatus Hfresh r' x.
  split; [|done].
  destruct (findById_elem _ _ _ _ Hfind) as [Hin _].
  pose proof (reachable_valid st Hreach) as Hvalid.
  rewrite list.Forall_forall in Hvalid.
  destruct (Hvalid r Hin) as (_ & Hto & Hbook & _).
  destruct (findByIdAndUpdate_Some Request._id oid
              (Request.setStatus "Accepted" (now env)) _ _ Hfind) as [coll Hupd].
  exists coll. split.
  - unfold RequestRoutes.put. rewrite Hstatus. simpl.
    unfold Mongoose.castId. rewrite Hoid, Hupd. simpl.
    rewrite (create_transaction_accepted env id oid _ _ Hoid Hto Hbook). simpl.
    rewrite (insert_transaction_fresh _ (newKey env)); [reflexivity | exact Hfresh | done].
  - eapply findById_updated; [|exact Hupd]. done.
Qed.

Lemma accept_opens_transaction_witness :
  ∃ coll,
    RequestRoutes.put (H := Example.casts) Sample.env2 Sample.id1
      (Sample.status "Accepted") Sample.store1
    = ({| requests := coll;
          transactions :=
            [{| Transaction._id := 3%N;
                Transaction.TransactionID := Some 4%N;
                Transaction.RequestID := 1%N;
                Transaction.OwnerID := "u2";
                Transaction.BooKID := "b1";
                Transaction.Status := "Pending";
                Transaction.TransactionDate := Some 2000;
                Transaction.BookReturnedDate := None |}] |},
       respond 200
         (request {| Request._id := 1%N;
                     Request.RequestID := 2%N;
                     Request.RequestedBy := "u1";
                     Request.RequestedTo := "u2";
                     Request.BookID := "b1";
                     Request.RequestDate := 1000;
                     Request.Status := "Accepted";
                     Request.DeliveryMethod := "In-person";
                     Request.Duration := 7;
                     Request.NegotiatedTerms := Some "";
                     Request.createdAt := 1000;
                     Request.updatedAt := 2000 |})).
Proof.
  destruct (accept_opens_transaction (H := Example.casts) Sample.env2 Sample.id1 1%N
              (Sample.status "Accepted") Sample.store1
              (createdRequest Sample.env1 Sample.fullBody))
    as [(coll & Hput & _) _].
  - apply (reachable_handle (H := Example.casts)
             (PostRequest Sample.env1 Sample.fullBody)).
    apply reachable_empty.
  - vm_compute. reflexivity.
  - vm_compute. reflexivity.
  - vm_compute. reflexivity.
  - constructor.
  - exists coll. exact Hput.
Defined.

(** ** Creating a transaction through its route *)

Lemma post_transaction_rejects `{Casts} env body st :
  TransactionRoutes.post env body st
  = (st, respond 400 (error (MessageOf ValidationError))).
Proof. reflexivity. Qed.

(** C2 (the code at the failing input).  [POST /transactions] passes
    neither [RequestID] nor [OwnerID] nor [BooKID] to the constructor, so a
    body that names all three, and indeed every body, is answered with the
    validation error and nothing is stored. *)
Theorem post_transaction_complete_body_rejected `{Casts} env st :
  TransactionRoutes.post env Sample.completeTransaction st
  = (st, respond 400 (error (MessageOf ValidationError)))
  ∧ ∀ body, TransactionRoutes.post env body st
            = (st, respond 400 (error (MessageOf ValidationError))).
Proof. split; [|intros body]; apply post_transaction_rejects. Qed.

(** ** Updating a transaction *)

Lemma castPath_None {A} (cast : JsValue -> Result (option A)) :
  Transaction.castPath cast None = Ok None.
Proof. reflexivity. Qed.
















(** ** Collections, by position *)

Section CollectionSplit.

Context {Doc : Type} (idOf : Doc -> ObjectId).

Lemma findById_None id coll :
  Collection.findById idOf id coll = None <-> Forall (fun d => idOf d ≠ id) coll.
Proof.
  induction coll as [|d rest IH]; simpl; [by split|].
  case_bool_decide as Hd.
  - split; [done|]. intros HF. apply Forall_cons_1 in HF as [Hne _]. contradiction.
  - rewrite IH. split.
    + intros HF. by apply Forall_cons_2.
    + intros HF. by apply Forall_cons_1 in HF as [_ HF].
Qed.

Lemma findById_split id coll d :
  Collection.findById idOf id coll = Some d ->
  ∃ l1 l2, coll = l1 ++ d :: l2 ∧ idOf d = id ∧ Forall (fun d0 => idOf d0 ≠ id) l1.
Proof.
  induction coll as [|d0 rest IH]; simpl; [done|].
  case_bool_decide as Hd.
  - intros [= ->]. exists [], rest. by repeat split.
  - intros Hf. destruct (IH Hf) as (l1 & l2 & -> & Hid & HF).
    exists (d0 :: l1), l2. repeat split; [done|]. by apply Forall_cons_2.
Qed.

Lemma findById_first id l1 d l2 :
  idOf d = id -> Forall (fun d0 => idOf d0 ≠ id) l1 ->
  Collection.findById idOf id (l1 ++ d :: l2) = Some d.
Proof.
  intros Hid. induction l1 as [|d0 l1 IH]; simpl; intros HF.
  - by rewrite bool_decide_eq_true_2.
  - apply Forall_cons_1 in HF as [Hne HF].
    rewrite bool_decide_eq_false_2 by done. by apply IH.
Qed.

Lemma findByIdAndUpdate_split id update coll coll' d' :
  Collection.findByIdAndUpdate idOf id update coll = Some (coll', d') ->
  ∃ l1 d l2, coll = l1 ++ d :: l2 ∧ coll' = l1 ++ update d :: l2
             ∧ d' = update d ∧ idOf d = id
             ∧ Forall (fun d0 => idOf d0 ≠ id) l1.
Proof.
  revert coll'. induction coll as [|d0 rest IH]; simpl; intros coll'; [done|].
  case_bool_decide as Hd.
  - intros [= <- <-]. exists [], d0, rest. by repeat split.
  - destruct (Collection.findByIdAndUpdate idOf id update rest) as [[rest' d1]|] eqn:E;
      [|done].
    intros [= <- <-].
    destruct (IH rest' eq_refl) as (l1 & d & l2 & -> & -> & -> & Hid & HF).
    exists (d0 :: l1), d, l2. repeat split; [done|]. by apply Forall_cons_2.
Qed.

Lemma findByIdAndDelete_split id coll coll' d' :
  Collection.findByIdAndDelete idOf id coll = Some (coll', d') ->
  ∃ l1 l2, coll = l1 ++ d' :: l2 ∧ coll' = l1 ++ l2 ∧ idOf d' = id
           ∧ Forall (fun d0 => idOf d0 ≠ id) l1.
Proof.
  revert coll'. induction coll as [|d0 rest IH]; simpl; intros coll'; [done|].
  case_bool_decide as Hd.
  - intros [= <- <-]. exists [], rest. by repeat split.
  - destruct (Collection.findByIdAndDelete idOf id rest) as [[rest' d1]|] eqn:E;
      [|done].
    intros [= <- <-].
    destruct (IH rest' eq_refl) as (l1 & l2 & -> & -> & Hid & HF).
    exists (d0 :: l1), l2. repeat split; [done|]. by apply Forall_cons_2.
Qed.

Lemma findByIdAndDelete_None id coll :
  Collection.findById idOf id coll = None ->
  Collection.findByIdAndDelete idOf id coll = None.
Proof.
  induction coll as [|d0 rest IH]; simpl; [done|].
  case_bool_decide; [done|]. intros Hf. by rewrite (IH Hf).
Qed.

Lemma findByIdAndDelete_Some id coll d :
  Collection.findById idOf id coll = Some d ->
  ∃ coll', Collection.findByIdAndDelete idOf id coll = Some (coll', d).
Proof.
  induction coll as [|d0 rest IH]; simpl; [done|].
  case_bool_decide.
  - intros [= ->]. eauto.
  - intros Hf. destruct (IH Hf) as [coll' ->]. eauto.
Qed.

(** In a collection without two documents of one [_id], the [_id] of a
    document at some position is held by no other. *)
Lemma NoDup_split_others id l1 d l2 :
  NoDup (idOf <$> (l1 ++ d :: l2)) -> idOf d = id ->
  Forall (fun d0 => idOf d0 ≠ id) (l1 ++ l2).
Proof.
  rewrite fmap_app, fmap_cons. intros Hnd Hid.
  apply list.NoDup_app in Hnd as (_ & Hdisj & Hnd2).
  apply list.NoDup_cons in Hnd2 as [Hnot2 _].
  apply Forall_app_2; apply list.Forall_forall; intros d0 Hin Heq.
  - apply (Hdisj (idOf d0)); [by apply list_elem_of_fmap_2|].
    rewrite Heq, <- Hid. left.
  - apply Hnot2. rewrite Hid, <- Heq. by apply list_elem_of_fmap_2.
Qed.

End CollectionSplit.

(** ** The token check *)

Lemma split_spaceless t : Auth.spaceless t = true -> Auth.split t = [t].
Proof.
  induction t as [|c t IH]; simpl; [done|].
  case_bool_decide; simpl; [done|]. intros Ht. by rewrite (IH Ht).
Qed.

Lemma split_word a b :
  Auth.spaceless a = true -> Auth.split (a +:+ String " " b) = a :: Auth.split b.
Proof.
  induction a as [|c a IH]; simpl; [done|].
  case_bool_decide; simpl; [done|]. intros Ha. by rewrite (IH Ha).
Qed.

Lemma word_not_empty a b : a +:+ String " " b ≠ "".
Proof. by destruct a. Qed.

(** X1.  Without an [authorization] header, with a header that has no space
    in it (the empty one included), or with one whose first space is its
    last character or is followed by another space, the middleware answers
    401 and does not call the route. *)
Theorem authenticate_no_token verify now authHeader :
  authHeader = None
  ∨ (∃ h, authHeader = Some h ∧ Auth.spaceless h = true)
  ∨ (∃ scheme, Auth.spaceless scheme = true ∧ authHeader = Some (scheme +:+ " "))
  ∨ (∃ scheme rest, Auth.spaceless scheme = true
                    ∧ authHeader = Some (scheme +:+ "  " +:+ rest)) ->
  Auth.authenticateToken verify now authHeader
  = Some (respond 401 (message "No token provided")).
Proof.
  unfold Auth.authenticateToken, Auth.token.
  intros [-> | [(h & -> & Hh) | [(scheme & Hs & ->) | (scheme & rest & Hs & ->)]]].
  - reflexivity.
  - case_bool_decide; [reflexivity|]. by rewrite (split_spaceless h Hh).
  - rewrite bool_decide_eq_false_2 by apply word_not_empty.
    by rewrite (split_word scheme "" Hs).
  - rewrite bool_decide_eq_false_2 by apply word_not_empty.
    change ("  " +:+ rest) with (String " " (String " " rest)).
    by rewrite (split_word scheme _ Hs).
Qed.

Lemma authenticate_no_token_witness :
  Auth.authenticateToken sampleVerify 0 (Some "good-token")
  = Some (respond 401 (message "No token provided"))
  ∧ Auth.authenticateToken sampleVerify 0 (Some "Bearer  good-token")
    = Some (respond 401 (message "No token provided")).
Proof.
  split; apply authenticate_no_token.
  - right. left. exists "good-token". split; reflexivity.
  - right. right. right. exists "Bearer", "good-token". split; reflexivity.
Defined.

(** X2.  The token is the second word of the header, whatever the first
    word is and whatever follows a further space: the route is called when
    the verification of that word succeeds, and the answer is 403 when it
    fails. *)
Theorem authenticate_second_word verify now scheme t authHeader :
  Auth.spaceless scheme = true -> Auth.spaceless t = true -> t ≠ "" ->
  authHeader = scheme +:+ " " +:+ t
  ∨ (∃ rest, authHeader = scheme +:+ " " +:+ t +:+ " " +:+ rest) ->
  Auth.authenticateToken verify now (Some authHeader)
  = if verify now t then None else Some (respond 403 (message "Invalid token")).
Proof.
  intros Hs Ht Hne Hh.
  assert (Auth.token (Some authHeader) = Some t) as Htok.
  { unfold Auth.token. destruct Hh as [-> | (rest & ->)].
    - rewrite bool_decide_eq_false_2 by apply word_not_empty.
      change (" " +:+ t) with (String " " t).
      by rewrite (split_word scheme _ Hs), (split_spaceless t Ht).
    - rewrite bool_decide_eq_false_2 by apply word_not_empty.
      change (" " +:+ t +:+ " " +:+ rest) with (String " " (t +:+ String " " rest)).
      by rewrite (split_word scheme _ Hs), (split_word t _ Ht). }
  unfold Auth.authenticateToken. rewrite Htok. simpl.
  by rewrite (bool_decide_eq_false_2 _ Hne).
Qed.

Lemma authenticate_second_word_witness :
  Auth.authenticateToken sampleVerify 0 (Some "Basic good-token and more") = None
  ∧ Auth.authenticateToken sampleVerify 0 (Some "Bearer stale-token")
    = Some (respond 403 (message "Invalid token")).
Proof.
  split.
  - apply (authenticate_second_word sampleVerify 0 "Basic" "good-token");
      [reflexivity | reflexivity | discriminate |].
    right. exists "and more". reflexivity.
  - apply (authenticate_second_word sampleVerify 0 "Bearer" "stale-token");
      [reflexivity | reflexivity | discriminate |].
    left. reflexivity.
Defined.

(** X3.  A call through the middleware changes the database only if the
    header carries a non-empty second word that the verification accepts;
    any other call is answered 401 or 403. *)
Theorem guarded_needs_token `{Casts} verify now authHeader c st :
  ((Auth.guarded verify now authHeader c st).1 ≠ st ->
   ∃ t, Auth.token authHeader = Some t ∧ t ≠ "" ∧ verify now t = true)
  ∧ ((∀ t, Auth.token authHeader = Some t -> t ≠ "" -> verify now t = false) ->
     (Auth.guarded verify now authHeader c st).1 = st
     ∧ (code (Auth.guarded verify now authHeader c st).2 = 401%nat
        ∨ code (Auth.guarded verify now authHeader c st).2 = 403%nat)).
Proof.
  unfold Auth.guarded, Auth.authenticateToken.
  destruct (Auth.token authHeader) as [t|]; simpl.
  - case_bool_decide as Ht; simpl.
    + split; [done|]. intros _. auto.
    + destruct (verify now t) eqn:Hv; simpl.
      * split; [intros _; eauto|]. intros Hno. by rewrite (Hno t) in Hv.
      * split; [done|]. intros _. auto.
  - split; [done|]. intros _. auto.
Qed.

Lemma guarded_needs_token_witness :
  (Auth.guarded (H := Example.casts) sampleVerify 0 (Some "Bearer stale-token")
     (PostRequest Sample.env1 Sample.fullBody) emptyStore).1 = emptyStore.
Proof.
  apply (guarded_needs_token (H := Example.casts) sampleVerify 0
           (Some "Bearer stale-token") (PostRequest Sample.env1 Sample.fullBody)
           emptyStore).
  intros t Ht _. vm_compute in Ht. injection Ht as <-. reflexivity.
Defined.

(** ** More on creating a request *)

(** Where the strings and the number of a created request come from, when
    the body gives strings and a number. *)
Lemma create_request_fields id key now rby rto book date status dm dur terms r :
  Request.create id key now rby rto book date status dm dur terms = Ok r ->
  (∀ s, rby = Some (JString s) -> Request.RequestedBy r = s)
  ∧ (∀ s, rto = Some (JString s) -> Request.RequestedTo r = s)
  ∧ (∀ s, book = Some (JString s) -> Request.BookID r = s)
  ∧ (∀ s, dm = Some (JString s) -> Request.DeliveryMethod r = s)
  ∧ (∀ n, dur = Some (JNumber n) -> Request.Duration r = n)
  ∧ (terms = None -> Request.NegotiatedTerms r = Some "")
  ∧ (∀ s, terms = Some (JString s) -> Request.NegotiatedTerms r = Some s)
  ∧ Request.RequestDate r = date
  ∧ Request.createdAt r = now ∧ Request.updatedAt r = now.
Proof.
  unfold Request.create. intros H. unbind.
  match goal with H : Ok _ = Ok _ |- _ => injection H as <- end.
  repeat match goal with
         | E : Mongoose.requiredString _ = Ok _ |- _ =>
             apply requiredString_Ok in E as [-> ?]
         | E : Mongoose.enum _ _ = Ok _ |- _ => apply enum_Ok in E as [-> ?]
         | E : Mongoose.required _ = Ok _ |- _ =>
             let o := fresh "o" in
             match type of E with
             | Mongoose.required ?x = _ => destruct x; simpl in E; [injection E as ->|done]
             end
         end.
  simpl. split_and!; try done; intros; subst; simpl in *; congruence.
Qed.

(** What an answer 201 of [POST /requests] means. *)
Lemma post_request_created env body st :
  code (RequestRoutes.post env body st).2 = 201%nat ->
  ∃ r, RequestRoutes.post env body st
       = ({| requests := requests st ++ [r]; transactions := transactions st |},
          respond 201 (created "Exchange request created successfully." r))
       ∧ Request.create (newId env) (newKey env) (now env)
           (body !! "RequestedBy") (body !! "RequestedTo") (body !! "BookID")
           (now env) "Pending"
           (body !! "DeliveryMethod") (body !! "Duration") (body !! "NegotiatedTerms")
         = Ok r
       ∧ Request.fresh (Request._id r) (Request.RequestID r) (requests st).
Proof.
  unfold RequestRoutes.post.
  destruct (_ || _); [discriminate|].
  destruct (Request.create _ _ _ _ _ _ _ _ _ _ _) as [r|e] eqn:E; simpl; [|discriminate].
  unfold Request.insert. case_bool_decide as Hdup; simpl; [discriminate|].
  intros _. exists r. split_and!; [done..|].
  apply list.Forall_forall. intros r' Hin. split; intros Heq; apply Hdup;
    apply list.Exists_exists; exists r'; auto.
Qed.

(** X4.  A request that [POST /requests] has answered with 201 is what
    [GET /requests/:id] answers under its identifier right after. *)
Theorem post_then_get `{Casts} env body st r id m :
  (RequestRoutes.post env body st).2 = respond 201 (created m r) ->
  toObjectId (JString id) = Some (Request._id r) ->
  RequestRoutes.get id (RequestRoutes.post env body st).1
  = ((RequestRoutes.post env body st).1, respond 200 (request r)).
Proof.
  intros Hres Hid.
  destruct (post_request_created env body st) as (r' & Hpost & _ & Hfresh).
  { by rewrite Hres. }
  rewrite Hpost in Hres |- *. injection Hres as _ <-. simpl.
  unfold RequestRoutes.get, Mongoose.castId. rewrite Hid. simpl.
  rewrite (findById_first Request._id (Request._id r') (requests st) r' []);
    [done..|].
  eapply list.Forall_impl; [exact Hfresh|]. by intros r0 [? _].
Qed.

Lemma post_then_get_witness :
  RequestRoutes.get (H := Example.casts) Sample.id1 Sample.store1
  = (Sample.store1, respond 200 (request (createdRequest Sample.env1 Sample.fullBody))).
Proof.
  apply (post_then_get (H := Example.casts) Sample.env1 Sample.fullBody emptyStore
           (createdRequest Sample.env1 Sample.fullBody) Sample.id1
           "Exchange request created successfully.").
  - vm_compute. reflexivity.
  - vm_compute. reflexivity.
Defined.

(** X5.  Whatever the body contains, a request that [POST /requests] stores
    is pending, carries the two generated identifiers and the clock of the
    server as its three dates, and satisfies its schema; no property of the
    body can set them. *)
Theorem post_request_server_assigned env body st :
  code (RequestRoutes.post env body st).2 = 201%nat ->
  ∃ r, requests (RequestRoutes.post env body st).1 = requests st ++ [r]
       ∧ json (RequestRoutes.post env body st).2
         = created "Exchange request created successfully." r
       ∧ Request.Status r = "Pending"
       ∧ Request._id r = newId env ∧ Request.RequestID r = newKey env
       ∧ Request.RequestDate r = now env
       ∧ Request.createdAt r = now env ∧ Request.updatedAt r = now env
       ∧ Request.valid r.
Proof.
  intros Hcode.
  destruct (post_request_created env body st Hcode) as (r & Hpost & Hcreate & _).
  exists r. rewrite Hpost. simpl.
  destruct (create_request_valid _ _ _ _ _ _ _ _ _ _ _ _ Hcreate) as (Hv & Hs & Hi & Hk).
  destruct (create_request_fields _ _ _ _ _ _ _ _ _ _ _ _ Hcreate)
    as (_ & _ & _ & _ & _ & _ & _ & Hd & Hc & Hu).
  by split_and!.
Qed.

Lemma post_request_server_assigned_witness :
  ∃ r, requests (RequestRoutes.post Sample.env1
                   (<["Status" := JString "Accepted"]> Sample.fullBody) emptyStore).1
       = [r]
       ∧ Request.Status r = "Pending".
Proof.
  destruct (post_request_server_assigned Sample.env1
              (<["Status" := JString "Accepted"]> Sample.fullBody) emptyStore)
    as (r & Hr & _ & Hs & _).
  - vm_compute. reflexivity.
  - exists r. split; [exact Hr | exact Hs].
Defined.

(** X6.  A delivery method that is a string other than In-person and
    Shipping creates nothing: the answer is 400. *)
Theorem post_request_delivery_method env body st m :
  body !! "DeliveryMethod" = Some (JString m) ->
  m ∉ Request.deliveryMethods ->
  code (RequestRoutes.post env body st).2 = 400%nat
  ∧ (RequestRoutes.post env body st).1 = st.
Proof.
  intros Hm Hnot.
  destruct (decide (code (RequestRoutes.post env body st).2 = 201%nat)) as [H201|Hne].
  - destruct (post_request_created env body st H201) as (r & _ & Hcreate & _).
    destruct (create_request_valid _ _ _ _ _ _ _ _ _ _ _ _ Hcreate)
      as ((_ & _ & _ & _ & Hdm) & _).
    destruct (create_request_fields _ _ _ _ _ _ _ _ _ _ _ _ Hcreate)
      as (_ & _ & _ & Hsrc & _).
    rewrite (Hsrc m Hm) in Hdm. contradiction.
  - revert Hne. unfold RequestRoutes.post.
    destruct (_ || _); [done|].
    destruct (bind _ _) as [[coll r]|e]; simpl; done.
Qed.

Lemma post_request_delivery_method_witness :
  code (RequestRoutes.post Sample.env1
          (<["DeliveryMethod" := JString "Courier"]> Sample.fullBody) emptyStore).2
  = 400%nat.
Proof.
  apply (post_request_delivery_method Sample.env1
           (<["DeliveryMethod" := JString "Courier"]> Sample.fullBody) emptyStore
           "Courier").
  - vm_compute. reflexivity.
  - intros Hin. not_in_literals Hin.
Defined.

(** ** More on the status of a request *)

(** [PUT /requests/:id] with an accepted status on a stored request, by
    position: the request is replaced where it stands. *)
Lemma put_request_found `{Casts} env id oid body st s r :
  toObjectId (JString id) = Some oid ->
  body !! "status" = Some (JString s) ->
  s ∈ ["Pending"; "Accepted"; "Rejected"] ->
  Collection.findById Request._id oid (requests st) = Some r ->
  ∃ l1 l2,
    requests st = l1 ++ r :: l2
    ∧ Forall (fun r0 => Request._id r0 ≠ oid) l1
    ∧ let r' := Request.setStatus s (now env) r in
      let coll := l1 ++ r' :: l2 in
      RequestRoutes.put env id body st
      = if bool_decide (s = "Accepted") then
          match
            try transaction <-
              Transaction.create (newId env) (newKey env) (now env)
                (Some (JString id)) (Some (JString (Request.RequestedTo r)))
                (Some (JString (Request.BookID r))) (Some (JString "Pending"))
                (Some (now env)) None;
            Transaction.insert transaction (transactions st)
          with
          | Ok coll' => ({| requests := coll; transactions := coll' |},
                         respond 200 (request r'))
          | Throw e => ({| requests := coll; transactions := transactions st |},
                        respond 500 (error (MessageOf e)))
          end
        else ({| requests := coll; transactions := transactions st |},
              respond 200 (request r')).
Proof.
  intros Hoid Hstatus Hs Hfind.
  destruct (findByIdAndUpdate_Some Request._id oid (Request.setStatus s (now env))
              _ _ Hfind) as [coll Hupd].
  destruct (findByIdAndUpdate_split _ _ _ _ _ _ Hupd)
    as (l1 & d & l2 & Hst & -> & Hd & Hid & HF).
  assert (d = r) as ->.
  { rewrite Hst in Hfind. rewrite (findById_first _ _ _ _ _ Hid HF) in Hfind.
    by injection Hfind. }
  exists l1, l2. split_and!; [done..|]. simpl.
  unfold RequestRoutes.put. rewrite Hstatus. simpl.
  rewrite (bool_decide_eq_true_2 _ Hs). simpl.
  unfold Mongoose.castId. rewrite Hoid, Hupd. simpl. reflexivity.
Qed.

(** X7.  [PUT /requests/:id] with the status Pending, Accepted or Rejected
    on a stored request replaces that request, where it stands, by one that
    differs from it in [Status] and [updatedAt] only; every other request is
    kept, also when the answer is 500. *)
Theorem put_request_status_only `{Casts} env id oid body st s r :
  toObjectId (JString id) = Some oid ->
  body !! "status" = Some (JString s) ->
  s ∈ ["Pending"; "Accepted"; "Rejected"] ->
  Collection.findById Request._id oid (requests st) = Some r ->
  ∃ l1 r' l2,
    requests st = l1 ++ r :: l2
    ∧ requests (RequestRoutes.put env id body st).1 = l1 ++ r' :: l2
    ∧ Request.Status r' = s ∧ Request.updatedAt r' = now env
    ∧ Request._id r' = Request._id r ∧ Request.RequestID r' = Request.RequestID r
    ∧ Request.RequestedBy r' = Request.RequestedBy r
    ∧ Request.RequestedTo r' = Request.RequestedTo r
    ∧ Request.BookID r' = Request.BookID r
    ∧ Request.RequestDate r' = Request.RequestDate r
    ∧ Request.DeliveryMethod r' = Request.DeliveryMethod r
    ∧ Request.Duration r' = Request.Duration r
    ∧ Request.NegotiatedTerms r' = Request.NegotiatedTerms r
    ∧ Request.createdAt r' = Request.createdAt r.
Proof.
  intros Hoid Hstatus Hs Hfind.
  destruct (put_request_found env id oid body st s r Hoid Hstatus Hs Hfind)
    as (l1 & l2 & Hst & _ & Hput).
  exists l1, (Request.setStatus s (now env) r), l2.
  split_and!; try done.
  simpl in Hput. rewrite Hput.
  destruct (bool_decide (s = "Accepted")); [|done].
  destruct (bind _ _); done.
Qed.

Lemma put_request_status_only_witness :
  ∃ r', requests (RequestRoutes.put (H := Example.casts) Sample.env2 Sample.id1
                    (Sample.status "Rejected") Sample.store1).1 = [r']
        ∧ Request.Status r' = "Rejected"
        ∧ Request.RequestedTo r' = "u2".
Proof.
  destruct (put_request_status_only (H := Example.casts) Sample.env2 Sample.id1 1%N
              (Sample.status "Rejected") Sample.store1 "Rejected"
              (createdRequest Sample.env1 Sample.fullBody))
    as (l1 & r' & l2 & Hst & Hput & Hs & _ & _ & _ & _ & Hto & _).
  - vm_compute. reflexivity.
  - vm_compute. reflexivity.
  - in_literals.
  - vm_compute. reflexivity.
  - destruct l1 as [|r0 [|r1 l1]]; [|destruct l2; discriminate Hst|discriminate Hst].
    destruct l2; [|discriminate Hst].
    exists r'. split_and!; [exact Hput | exact Hs | by rewrite Hto].
Defined.

Lemma put_request_not_accepted `{Casts} env id body st :
  body !! "status" ≠ Some (JString "Accepted") ->
  transactions (RequestRoutes.put env id body st).1 = transactions st.
Proof.
  intros Hne. unfold RequestRoutes.put.
  destruct (Js.includes _ _); simpl; [|done].
  destruct (Mongoose.castId id); simpl; [|done].
  destruct (Collection.findByIdAndUpdate _ _ _ _) as [[coll r']|]; [|done].
  assert (Js.strictEq (body !! "status") "Accepted" = false) as ->; [|done].
  destruct (body !! "status") as [[| | |s| |]|]; simpl; try done.
  apply bool_decide_eq_false_2. by intros ->.
Qed.

(** X8.  Only the status Accepted opens a transaction: with any other
    status, or none, [PUT /requests/:id] leaves the transactions as they
    are, whatever it answers and whatever the identifier. *)
Theorem put_request_other_status `{Casts} env id body st :
  body !! "status" ≠ Some (JString "Accepted") ->
  transactions (RequestRoutes.put env id body st).1 = transactions st.
Proof. apply put_request_not_accepted. Qed.

Lemma put_request_other_status_witness :
  transactions (RequestRoutes.put (H := Example.casts) Sample.env2 Sample.id1
                  (Sample.status "Rejected") Sample.store1).1 = [].
Proof.
  apply (put_request_other_status (H := Example.casts) Sample.env2 Sample.id1
           (Sample.status "Rejected") Sample.store1).
  intros Heq. vm_compute in Heq. discriminate Heq.
Defined.

(** ** More on accepting a request *)

(** The acceptance of a stored request whose counterparty and book are not
    empty comes down to the insert of its transaction. *)
Lemma accept_found `{Casts} env id oid body st r :
  toObjectId (JString id) = Some oid ->
  body !! "status" = Some (JString "Accepted") ->
  Collection.findById Request._id oid (requests st) = Some r ->
  Request.RequestedTo r ≠ "" -> Request.BookID r ≠ "" ->
  ∃ coll,
    Collection.findById Request._id oid coll
    = Some (Request.setStatus "Accepted" (now env) r)
    ∧ RequestRoutes.put env id body st
      = match Transaction.insert (openedTransaction env oid r) (transactions st) with
        | Ok coll' =>
            ({| requests := coll; transactions := coll' |},
             respond 200 (request (Request.setStatus "Accepted" (now env) r)))
        | Throw e =>
            ({| requests := coll; transactions := transactions st |},
             respond 500 (error (MessageOf e)))
        end.
Proof.
  intros Hoid Hstatus Hfind Hto Hbook.
  destruct (put_request_found env id oid body st "Accepted" r Hoid Hstatus)
    as (l1 & l2 & Hst & HF & Hput); [in_literals | done |].
  exists (l1 ++ Request.setStatus "Accepted" (now env) r :: l2). split.
  - destruct (findById_elem _ _ _ _ Hfind) as [_ Hid].
    apply findById_first; [exact Hid | exact HF].
  - simpl in Hput. rewrite Hput.
    by rewrite (create_transaction_accepted env id oid _ _ Hoid Hto Hbook).
Qed.

(** X9.  Acceptance is not idempotent: accepting a request that exists, and
    accepting it again, opens two transactions for the one request, the
    identifiers generated for them being unused and distinct. *)
Theorem accept_twice `{Casts} env1 env2 id oid body st r :
  reachable st ->
  toObjectId (JString id) = Some oid ->
  Collection.findById Request._id oid (requests st) = Some r ->
  body !! "status" = Some (JString "Accepted") ->
  Transaction.fresh (newId env1) (newKey env1) (transactions st) ->
  Transaction.fresh (newId env2) (newKey env2) (transactions st) ->
  newId env2 ≠ newId env1 -> newKey env2 ≠ newKey env1 ->
  let st1 := (RequestRoutes.put env1 id body st).1 in
  let st2 := (RequestRoutes.put env2 id body st1).1 in
  transactions st2
  = transactions st ++ [openedTransaction env1 oid r; openedTransaction env2 oid r]
  ∧ code (RequestRoutes.put env2 id body st1).2 = 200%nat.
Proof.
  intros Hreach Hoid Hfind Hstatus Hf1 Hf2 Hid Hkey st1 st2.
  destruct (findById_elem _ _ _ _ Hfind) as [Hin _].
  pose proof (reachable_valid st Hreach) as Hvalid.
  rewrite list.Forall_forall in Hvalid.
  destruct (Hvalid r Hin) as (_ & Hto & Hbook & _).
  destruct (accept_found env1 id oid body st r Hoid Hstatus Hfind Hto Hbook)
    as (coll1 & Hfind1 & Hput1).
  rewrite (insert_transaction_fresh _ (newKey env1)) in Hput1 by done.
  assert (st1 = {| requests := coll1;
                   transactions := transactions st ++ [openedTransaction env1 oid r] |})
    as Hst1 by (unfold st1; by rewrite Hput1).
  destruct (accept_found env2 id oid body st1
              (Request.setStatus "Accepted" (now env1) r) Hoid Hstatus)
    as (coll2 & _ & Hput2); [by rewrite Hst1 | done | done |].
  rewrite (insert_transaction_fresh _ (newKey env2)) in Hput2; [| |done].
  - unfold st2. rewrite Hput2. rewrite Hst1. simpl.
    by rewrite <- app_assoc.
  - rewrite Hst1. simpl. apply Forall_app_2; [exact Hf2|].
    apply Forall_cons_2; [|constructor]. simpl. split; [done|]. congruence.
Qed.

Lemma accept_twice_witness :
  transactions
    (RequestRoutes.put (H := Example.casts)
       {| now := 3000; newId := 5%N; newKey := 6%N |} Sample.id1
       (Sample.status "Accepted") Sample.store2).1
  = [openedTransaction Sample.env2 1%N (createdRequest Sample.env1 Sample.fullBody);
     openedTransaction {| now := 3000; newId := 5%N; newKey := 6%N |} 1%N
       (createdRequest Sample.env1 Sample.fullBody)].
Proof.
  apply (accept_twice (H := Example.casts) Sample.env2
           {| now := 3000; newId := 5%N; newKey := 6%N |} Sample.id1 1%N
           (Sample.status "Accepted") Sample.store1
           (createdRequest Sample.env1 Sample.fullBody)).
  - apply (reachable_handle (H := Example.casts)
             (PostRequest Sample.env1 Sample.fullBody)).
    apply reachable_empty.
  - vm_compute. reflexivity.
  - vm_compute. reflexivity.
  - vm_compute. reflexivity.
  - constructor.
  - constructor.
  - discriminate.
  - discriminate.
Defined.

(** X10.  Acceptance is not atomic: when the insert of the transaction is
    refused, because a stored transaction holds one of the generated
    identifiers, the answer is 500 and no transaction is added, but the
    request stored under the identifier now has the status Accepted and the
    clock as [updatedAt], its other fields being what they were. *)
Theorem accept_refused_insert `{Casts} env id oid body st r :
  reachable st ->
  toObjectId (JString id) = Some oid ->
  Collection.findById Request._id oid (requests st) = Some r ->
  body !! "status" = Some (JString "Accepted") ->
  Exists (fun x => Transaction._id x = newId env
                   ∨ Transaction.TransactionID x = Some (newKey env))
    (transactions st) ->
  let st' := (RequestRoutes.put env id body st).1 in
  (RequestRoutes.put env id body st).2 = respond 500 (error (MessageOf DuplicateKey))
  ∧ transactions st' = transactions st
  ∧ ∃ r', Collection.findById Request._id oid (requests st') = Some r'
          ∧ Request.Status r' = "Accepted"
          ∧ Request.updatedAt r' = now env
          ∧ Request._id r' = Request._id r
          ∧ Request.RequestID r' = Request.RequestID r
          ∧ Request.RequestedBy r' = Request.RequestedBy r
          ∧ Request.RequestedTo r' = Request.RequestedTo r
          ∧ Request.BookID r' = Request.BookID r
          ∧ Request.RequestDate r' = Request.RequestDate r
          ∧ Request.DeliveryMethod r' = Request.DeliveryMethod r
          ∧ Request.Duration r' = Request.Duration r
          ∧ Request.NegotiatedTerms r' = Request.NegotiatedTerms r
          ∧ Request.createdAt r' = Request.createdAt r.
Proof.
  intros Hreach Hoid Hfind Hstatus Hdup st'.
  destruct (findById_elem _ _ _ _ Hfind) as [Hin _].
  pose proof (reachable_valid st Hreach) as Hvalid.
  rewrite list.Forall_forall in Hvalid.
  destruct (Hvalid r Hin) as (_ & Hto & Hbook & _).
  destruct (accept_found env id oid body st r Hoid Hstatus Hfind Hto Hbook)
    as (coll & Hfind' & Hput).
  unfold st'. rewrite Hput. unfold Transaction.insert.
  rewrite bool_decide_eq_true_2 by exact Hdup. simpl.
  split_and!; [done..|].
  exists (Request.setStatus "Accepted" (now env) r). by split_and!.
Qed.

Lemma accept_refused_insert_witness :
  (RequestRoutes.put (H := Example.casts) Sample.env2 Sample.id1
     (Sample.status "Accepted") Sample.taken).2
  = respond 500 (error (MessageOf DuplicateKey))
  ∧ transactions (RequestRoutes.put (H := Example.casts) Sample.env2 Sample.id1
                    (Sample.status "Accepted") Sample.taken).1
    = transactions Sample.taken
  ∧ ∃ r', Collection.findById Request._id 1%N
            (requests (RequestRoutes.put (H := Example.casts) Sample.env2 Sample.id1
                         (Sample.status "Accepted") Sample.taken).1) = Some r'
          ∧ Request.Status r' = "Accepted".
Proof.
  destruct (accept_refused_insert (H := Example.casts) Sample.env2 Sample.id1 1%N
              (Sample.status "Accepted") Sample.taken
              (Request.setStatus "Rejected" 4000
                 (Request.setStatus "Accepted" 2000
                    (createdRequest Sample.env1 Sample.fullBody))))
    as (Hres & Htx & r' & Hfind & Hs & _).
  - apply (reachable_handle (H := Example.casts)
             (PutRequest {| now := 4000; newId := 7%N; newKey := 8%N |} Sample.id1
                (Sample.status "Rejected"))).
    apply (reachable_handle (H := Example.casts)
             (PutRequest Sample.env2 Sample.id1 (Sample.status "Accepted"))).
    apply (reachable_handle (H := Example.casts)
             (PostRequest Sample.env1 Sample.fullBody)).
    apply reachable_empty.
  - vm_compute. reflexivity.
  - vm_compute. reflexivity.
  - vm_compute. reflexivity.
  - apply Exists_cons_hd. left. vm_compute. reflexivity.
  - split_and!; [exact Hres | exact Htx |]. exists r'. split; [exact Hfind | exact Hs].
Defined.

(** ** What each route does to the database *)

Lemma post_request_failed env body st :
  code (RequestRoutes.post env body st).2 ≠ 201%nat ->
  (RequestRoutes.post env body st).1 = st.
Proof.
  unfold RequestRoutes.post.
  destruct (_ || _); [done|].
  destruct (bind _ _) as [[coll r]|e]; simpl; done.
Qed.

Lemma get_request_store `{Casts} id st : (RequestRoutes.get id st).1 = st.
Proof.
  unfold RequestRoutes.get. destruct (Mongoose.castId id); [|done].
  destruct (Collection.findById _ _ _); done.
Qed.

Lemma getByRequest_store `{Casts} id st :
  (TransactionRoutes.getByRequest id st).1 = st.
Proof.
  unfold TransactionRoutes.getByRequest. destruct (Mongoose.castId id); [|done].
  destruct (list_find _ _) as [[i x]|]; done.
Qed.

(** The answers of [PUT /requests/:id], case by case. *)
Lemma put_request_cases `{Casts} env id body st :
  RequestRoutes.put env id body st = (st, respond 400 (error (Text "Invalid status")))
  ∨ RequestRoutes.put env id body st = (st, respond 500 (error (MessageOf CastError)))
  ∨ RequestRoutes.put env id body st = (st, respond 404 (error (Text "Request not found")))
  ∨ ∃ s oid r,
      body !! "status" = Some (JString s) ∧ s ∈ ["Pending"; "Accepted"; "Rejected"]
      ∧ toObjectId (JString id) = Some oid
      ∧ Collection.findById Request._id oid (requests st) = Some r.
Proof.
  destruct (Js.includes ["Pending"; "Accepted"; "Rejected"] (body !! "status")) eqn:Hinc.
  - apply includes_acceptedStatus in Hinc as (s & Hs & Hin).
    unfold RequestRoutes.put. rewrite Hs. simpl.
    rewrite (bool_decide_eq_true_2 _ Hin). simpl. unfold Mongoose.castId.
    destruct (toObjectId (JString id)) as [oid|] eqn:Hoid; [|auto].
    destruct (Collection.findById Request._id oid (requests st)) as [r|] eqn:Hfind.
    + right. right. right. by exists s, oid, r.
    + rewrite (findByIdAndUpdate_None _ _ _ _ Hfind). auto.
  - left. unfold RequestRoutes.put. by rewrite Hinc.
Qed.

Lemma delete_request_cases `{Casts} id st :
  RequestRoutes.delete id st = (st, respond 500 (error (MessageOf CastError)))
  ∨ RequestRoutes.delete id st = (st, respond 404 (error (Text "Request not found")))
  ∨ ∃ oid l1 r l2,
      toObjectId (JString id) = Some oid
      ∧ requests st = l1 ++ r :: l2 ∧ Request._id r = oid
      ∧ Forall (fun r0 => Request._id r0 ≠ oid) l1
      ∧ RequestRoutes.delete id st
        = ({| requests := l1 ++ l2; transactions := transactions st |},
           respond 200 (message "Request deleted successfully")).
Proof.
  unfold RequestRoutes.delete, Mongoose.castId.
  destruct (toObjectId (JString id)) as [oid|] eqn:Hoid; [|auto].
  destruct (Collection.findByIdAndDelete _ _ _) as [[coll r]|] eqn:Hdel; [|auto].
  destruct (findByIdAndDelete_split _ _ _ _ _ Hdel) as (l1 & l2 & Hst & -> & Hid & HF).
  right. right. by exists oid, l1, r, l2.
Qed.

Lemma delete_transaction_cases `{Casts} id st :
  TransactionRoutes.delete id st = (st, respond 500 (error (MessageOf CastError)))
  ∨ TransactionRoutes.delete id st
    = (st, respond 404 (error (Text "Transaction not found")))
  ∨ ∃ oid l1 x l2,
      toObjectId (JString id) = Some oid
      ∧ transactions st = l1 ++ x :: l2 ∧ Transaction._id x = oid
      ∧ Forall (fun x0 => Transaction._id x0 ≠ oid) l1
      ∧ TransactionRoutes.delete id st
        = ({| requests := requests st; transactions := l1 ++ l2 |},
           respond 200 (message "Transaction deleted successfully")).
Proof.
  unfold TransactionRoutes.delete, Mongoose.castId.
  destruct (toObjectId (JString id)) as [oid|] eqn:Hoid; [|auto].
  destruct (Collection.findByIdAndDelete _ _ _) as [[coll x]|] eqn:Hdel; [|auto].
  destruct (findByIdAndDelete_split _ _ _ _ _ Hdel) as (l1 & l2 & Hst & -> & Hid & HF).
  right. right. by exists oid, l1, x, l2.
Qed.

Lemma put_transaction_cases `{Casts} id body st :
  (∃ e, TransactionRoutes.put id body st = (st, respond 400 (error (MessageOf e))))
  ∨ TransactionRoutes.put id body st
    = (st, respond 404 (error (Text "Transaction not found")))
  ∨ ∃ oid u l1 x l2,
      toObjectId (JString id) = Some oid
      ∧ Transaction.castUpdate body = Ok u
      ∧ transactions st = l1 ++ x :: l2 ∧ Transaction._id x = oid
      ∧ Forall (fun x0 => Transaction._id x0 ≠ oid) l1
      ∧ Transaction.refused u x (transactions st) = None
      ∧ TransactionRoutes.put id body st
        = ({| requests := requests st;
              transactions := l1 ++ Transaction.apply u x :: l2 |},
           respond 200 (transaction (Transaction.apply u x))).
Proof.
  unfold TransactionRoutes.put, Mongoose.castId.
  destruct (toObjectId (JString id)) as [oid|] eqn:Hoid; simpl; [|eauto].
  destruct (Transaction.castUpdate body) as [u|e] eqn:Hu; simpl; [|eauto].
  destruct (Collection.findById Transaction._id oid (transactions st)) as [x|] eqn:Hfind;
    [|auto].
  destruct (Transaction.refused u x (transactions st)) as [e|] eqn:Href; [eauto|].
  destruct (findByIdAndUpdate_Some Transaction._id oid (Transaction.apply u) _ _ Hfind)
    as [coll Hupd].
  rewrite Hupd.
  destruct (findByIdAndUpdate_split _ _ _ _ _ _ Hupd)
    as (l1 & d & l2 & Hst & -> & _ & Hid & HF).
  assert (d = x) as ->.
  { rewrite Hst in Hfind. rewrite (findById_first _ _ _ _ _ Hid HF) in Hfind.
    by injection Hfind. }
  right. right. by exists oid, u, l1, x, l2.
Qed.

Lemma create_transaction_valid `{Casts} id key now req owner book status date ret x :
  Transaction.create id key now req owner book status date ret = Ok x ->
  validTransaction x ∧ Transaction._id x = id ∧ Transaction.TransactionID x = Some key
  ∧ (status = Some (JString "Pending") -> Transaction.Status x = "Pending").
Proof.
  unfold Transaction.create. intros Hc. unbind.
  repeat match goal with
         | E : Mongoose.requiredString _ = Ok _ |- _ =>
             apply requiredString_Ok in E as [-> ?]
         | E : Mongoose.enum _ _ = Ok _ |- _ => apply enum_Ok in E as [-> ?]
         end.
  match goal with H : Ok _ = Ok _ |- _ => injection H as H end.
  subst. unfold validTransaction. simpl. split_and!; try done.
  intros ->. simpl in *. congruence.
Qed.

Lemma insert_transaction_Ok x coll coll' :
  Transaction.insert x coll = Ok coll' ->
  coll' = coll ++ [x]
  ∧ Forall (fun x' => Transaction._id x' ≠ Transaction._id x
                      ∧ Transaction.TransactionID x' ≠ Transaction.TransactionID x) coll.
Proof.
  unfold Transaction.insert. case_bool_decide as Hdup; [done|]. intros [= <-].
  split; [done|]. apply list.Forall_forall. intros x' Hin.
  split; intros Heq; apply Hdup; apply list.Exists_exists; exists x'; auto.
Qed.

Lemma strictEq_true v lit : Js.strictEq v lit = true <-> v = Some (JString lit).
Proof.
  destruct v as [[| | |s| |]|]; simpl; try (split; [discriminate|by intros [=]]).
  rewrite bool_decide_eq_true. split; [by intros ->|by intros [= ->]].
Qed.

(** What [PUT /requests/:id] does to the transactions: nothing, or, for the
    status Accepted and with the answer 200, one pending transaction is
    inserted at the end. *)
Lemma put_request_transactions `{Casts} env id body st :
  transactions (RequestRoutes.put env id body st).1 = transactions st
  ∨ ∃ x, transactions (RequestRoutes.put env id body st).1 = transactions st ++ [x]
         ∧ Transaction.insert x (transactions st) = Ok (transactions st ++ [x])
         ∧ validTransaction x ∧ Transaction.Status x = "Pending"
         ∧ body !! "status" = Some (JString "Accepted")
         ∧ code (RequestRoutes.put env id body st).2 = 200%nat.
Proof.
  destruct (Js.strictEq (body !! "status") "Accepted") eqn:Hacc;
    [apply strictEq_true in Hacc
    |left; apply put_request_not_accepted; intros Heq;
     apply strictEq_true in Heq; congruence].
  destruct (put_request_cases env id body st)
    as [-> | [-> | [-> | (s & oid & r & Hs & Hin & Hoid & Hfind)]]]; [by left..|].
  destruct (put_request_found env id oid body st s r Hoid Hs Hin Hfind)
    as (l1 & l2 & _ & _ & Hput).
  simpl in Hput. rewrite Hput. assert (s = "Accepted") as -> by congruence. simpl.
  destruct (Transaction.create _ _ _ _ _ _ _ _ _) as [x|e] eqn:Hc; simpl; [|by left].
  destruct (Transaction.insert x (transactions st)) as [coll'|e] eqn:Hi; simpl;
    [|by left].
  destruct (insert_transaction_Ok _ _ _ Hi) as [-> _].
  destruct (create_transaction_valid _ _ _ _ _ _ _ _ _ _ Hc) as (Hv & _ & _ & Hp).
  right. exists x. split_and!; auto.
Qed.

(** ** Identifiers stay unique *)

Lemma NoDup_fmap_snoc {A B} (g : A -> B) l a :
  NoDup (g <$> l) -> Forall (fun a0 => g a0 ≠ g a) l -> NoDup (g <$> (l ++ [a])).
Proof.
  intros Hnd HF. rewrite fmap_app. apply list.NoDup_app. split_and!; [done| |].
  - intros b Hb Hin. simpl in Hin. apply list_elem_of_singleton in Hin as ->.
    apply list_elem_of_fmap in Hb as (a0 & Heq & Ha0).
    rewrite list.Forall_forall in HF. by apply (HF a0 Ha0).
  - simpl. apply NoDup_singleton.
Qed.

Lemma NoDup_fmap_remove {A B} (g : A -> B) l1 d l2 :
  NoDup (g <$> (l1 ++ d :: l2)) -> NoDup (g <$> (l1 ++ l2)).
Proof.
  rewrite !fmap_app, fmap_cons. intros Hnd.
  apply list.NoDup_app in Hnd as (H1 & Hdisj & H2).
  apply list.NoDup_cons in H2 as [_ H2].
  apply list.NoDup_app. split_and!; [done| |done].
  intros b Hb Hin. apply (Hdisj b Hb). by right.
Qed.

Lemma NoDup_fmap_replace {A B} (g : A -> B) l1 d d' l2 :
  NoDup (g <$> (l1 ++ d :: l2)) ->
  Forall (fun a => g a ≠ g d') (l1 ++ l2) ->
  NoDup (g <$> (l1 ++ d' :: l2)).
Proof.
  rewrite !fmap_app, !fmap_cons. intros Hnd HF.
  apply Forall_app in HF as [HF1 HF2]. rewrite list.Forall_forall in HF1, HF2.
  apply list.NoDup_app in Hnd as (H1 & Hdisj & H2).
  apply list.NoDup_cons in H2 as [_ H2].
  apply list.NoDup_app. split_and!; [done| |].
  - intros b Hb Hin. apply elem_of_cons in Hin as [->|Hin].
    + apply list_elem_of_fmap in Hb as (a & Heq & Ha). by apply (HF1 a Ha).
    + apply (Hdisj b Hb). by right.
  - apply list.NoDup_cons. split; [|done].
    intros Hin. apply list_elem_of_fmap in Hin as (a & Heq & Ha). by apply (HF2 a Ha).
Qed.

Lemma fmap_replace_same {A B} (g : A -> B) l1 d d' l2 :
  g d' = g d -> g <$> (l1 ++ d' :: l2) = g <$> (l1 ++ d :: l2).
Proof. intros Hg. by rewrite !fmap_app, !fmap_cons, Hg. Qed.

(** Every call keeps the identifiers unique. *)
Lemma handle_uniqueIds `{Casts} c st : uniqueIds st -> uniqueIds (handle c st).1.
Proof.
  intros (Hr1 & Hr2 & Ht1 & Ht2). destruct c; cbn [handle].
  - destruct (decide (code (RequestRoutes.post env body st).2 = 201%nat)) as [H201|Hne].
    + destruct (post_request_created env body st H201) as (r & -> & _ & Hfresh).
      unfold uniqueIds. simpl. split_and!; [| |done..].
      * apply NoDup_fmap_snoc; [done|].
        eapply list.Forall_impl; [exact Hfresh|]. by intros r0 [? _].
      * apply NoDup_fmap_snoc; [done|].
        eapply list.Forall_impl; [exact Hfresh|]. by intros r0 [_ ?].
    + by rewrite (post_request_failed env body st Hne).
  - done.
  - done.
  - by rewrite get_request_store.
  - assert (NoDup (Request._id <$> requests (RequestRoutes.put env id body st).1)
            ∧ NoDup (Request.RequestID <$> requests (RequestRoutes.put env id body st).1))
      as [Hp1 Hp2].
    { destruct (put_request_cases env id body st)
        as [-> | [-> | [-> | (s & oid & r & Hs & Hin & Hoid & Hfind)]]]; [done..|].
      destruct (put_request_found env id oid body st s r Hoid Hs Hin Hfind)
        as (l1 & l2 & Hst & _ & Hput).
      assert (requests (RequestRoutes.put env id body st).1
              = l1 ++ Request.setStatus s (now env) r :: l2) as ->.
      { simpl in Hput. rewrite Hput.
        destruct (bool_decide (s = "Accepted")); [|done]. destruct (bind _ _); done. }
      rewrite (fmap_replace_same Request._id _ r) by done.
      rewrite (fmap_replace_same Request.RequestID _ r) by done.
      by rewrite <- Hst. }
    unfold uniqueIds. split_and!; [done..| |].
    + destruct (put_request_transactions env id body st)
        as [-> | (x & -> & Hi & _)]; [done|].
      apply insert_transaction_Ok in Hi as [_ HF].
      apply NoDup_fmap_snoc; [done|].
      eapply list.Forall_impl; [exact HF|]. by intros x0 [? _].
    + destruct (put_request_transactions env id body st)
        as [-> | (x & -> & Hi & _)]; [done|].
      apply insert_transaction_Ok in Hi as [_ HF].
      apply NoDup_fmap_snoc; [done|].
      eapply list.Forall_impl; [exact HF|]. by intros x0 [_ ?].
  - destruct (delete_request_cases id st)
      as [-> | [-> | (oid & l1 & r & l2 & _ & Hst & _ & _ & ->)]]; [done..|].
    unfold uniqueIds. simpl. rewrite Hst in Hr1, Hr2.
    split_and!; [by eapply NoDup_fmap_remove..|done|done].
  - by rewrite post_transaction_rejects.
  - by rewrite getByRequest_store.
  - destruct (put_transaction_cases id body st)
      as [[e ->] | [-> | (oid & u & l1 & x & l2 & _ & _ & Hst & Hid & HF & Href & ->)]];
      [done..|].
    unfold uniqueIds. simpl. split_and!; [done..| |].
    + rewrite (fmap_replace_same Transaction._id _ x) by done. by rewrite <- Hst.
    + destruct (Transaction.setTransactionID u) as [k|] eqn:Hk.
      * rewrite Hst in Ht2. eapply NoDup_fmap_replace; [exact Ht2|].
        unfold Transaction.refused in Href.
        case_bool_decide; [done|]. case_bool_decide as Hex; [done|].
        rewrite Hst in Ht1. pose proof (NoDup_split_others _ _ _ _ _ Ht1 Hid) as Hoth.
        rewrite list.Forall_forall in Hoth. apply list.Forall_forall.
        intros x0 Hin Heq. apply Hex. split; [by rewrite Hk|].
        apply list.Exists_exists. exists x0. split.
        { rewrite Hst. apply elem_of_app in Hin as [?|?];
            apply elem_of_app; [by left | right; by right]. }
        split; [|done]. rewrite Hid. by apply Hoth.
      * rewrite (fmap_replace_same Transaction.TransactionID _ x);
          [by rewrite <- Hst|].
        unfold Transaction.apply. simpl. by rewrite Hk.
  - destruct (delete_transaction_cases id st)
      as [-> | [-> | (oid & l1 & x & l2 & _ & Hst & _ & _ & ->)]]; [done..|].
    unfold uniqueIds. simpl. rewrite Hst in Ht1, Ht2.
    split_and!; [done|done|by eapply NoDup_fmap_remove..].
Qed.

Lemma reachable_unique `{Casts} st : reachable st -> uniqueIds st.
Proof.
  induction 1 as [|c st Hr IH]; [|by apply handle_uniqueIds].
  unfold uniqueIds. simpl. split_and!; constructor.
Qed.

(** X11.  In every reachable state, and after every call from a state in
    which it is so, no two stored requests share an [_id] or a [RequestID]
    and no two stored transactions share an [_id] or a [TransactionID]: the
    inserts and the update of a transaction are refused where they would
    break it. *)
Theorem identifiers_unique `{Casts} :
  (∀ st, reachable st -> uniqueIds st)
  ∧ (∀ c st, uniqueIds st -> uniqueIds (handle c st).1).
Proof. split; [apply @reachable_unique | apply @handle_uniqueIds]. Qed.

Lemma identifiers_unique_witness : uniqueIds Sample.store2.
Proof.
  apply (proj1 (identifiers_unique (H := Example.casts))).
  apply (reachable_handle (H := Example.casts)
           (PutRequest Sample.env2 Sample.id1 (Sample.status "Accepted"))).
  apply (reachable_handle (H := Example.casts)
           (PostRequest Sample.env1 Sample.fullBody)).
  apply reachable_empty.
Defined.

(** ** Deleting *)

(** After the delete of a request in a state of unique identifiers no
    request is stored under the identifier, and the transactions are what
    they were. *)
Lemma delete_request_gone `{Casts} id oid st :
  NoDup (Request._id <$> requests st) ->
  toObjectId (JString id) = Some oid ->
  Collection.findById Request._id oid (requests (RequestRoutes.delete id st).1) = None
  ∧ transactions (RequestRoutes.delete id st).1 = transactions st.
Proof.
  intros Hnd Hoid.
  destruct (delete_request_cases id st)
    as [Hd | [Hd | (oid' & l1 & r & l2 & Hoid' & Hst & Hid & HF & Hd)]];
    rewrite Hd; simpl.
  - unfold RequestRoutes.delete, Mongoose.castId in Hd. rewrite Hoid in Hd.
    destruct (Collection.findByIdAndDelete _ _ _) as [[? ?]|]; discriminate Hd.
  - split; [|done].
    unfold RequestRoutes.delete, Mongoose.castId in Hd. rewrite Hoid in Hd.
    destruct (Collection.findById Request._id oid (requests st)) as [r|] eqn:Hf;
      [|done].
    destruct (findByIdAndDelete_Some _ _ _ _ Hf) as [coll Hc].
    rewrite Hc in Hd. discriminate Hd.
  - split; [|done]. assert (oid' = oid) as -> by congruence.
    apply findById_None.
    rewrite Hst in Hnd. by apply (NoDup_split_others _ _ _ _ _ Hnd Hid).
Qed.

(** X12.  In a reachable state, after [DELETE /requests/:id], whatever it
    answered, [GET /requests/:id] with the same well-formed identifier
    answers 404; the delete touches no transaction, so those of the deleted
    request stay. *)
Theorem delete_then_get `{Casts} id oid st :
  reachable st ->
  toObjectId (JString id) = Some oid ->
  let st' := (RequestRoutes.delete id st).1 in
  RequestRoutes.get id st' = (st', respond 404 (error (Text "Request not found")))
  ∧ transactions st' = transactions st.
Proof.
  intros Hreach Hoid st'.
  destruct (reachable_unique st Hreach) as (Hnd & _).
  destruct (delete_request_gone id oid st Hnd Hoid) as [Hnone Htx].
  split; [|exact Htx].
  unfold RequestRoutes.get, Mongoose.castId. rewrite Hoid. unfold st'. by rewrite Hnone.
Qed.

Lemma delete_then_get_witness :
  RequestRoutes.get (H := Example.casts) Sample.id1
    (RequestRoutes.delete (H := Example.casts) Sample.id1 Sample.store2).1
  = ((RequestRoutes.delete (H := Example.casts) Sample.id1 Sample.store2).1,
     respond 404 (error (Text "Request not found")))
  ∧ transactions (RequestRoutes.delete (H := Example.casts) Sample.id1 Sample.store2).1
    = transactions Sample.store2.
Proof.
  apply (delete_then_get (H := Example.casts) Sample.id1 1%N Sample.store2).
  - apply (reachable_handle (H := Example.casts)
             (PutRequest Sample.env2 Sample.id1 (Sample.status "Accepted"))).
    apply (reachable_handle (H := Example.casts)
             (PostRequest Sample.env1 Sample.fullBody)).
    apply reachable_empty.
  - vm_compute. reflexivity.
Defined.

(** ** Identifiers that are not well formed *)

(** X13.  A route parameter that does not cast to an ObjectId is answered
    with 500 by the routes of requests that take an identifier (by the
    update only when the status is accepted, 400 otherwise) and by the
    delete and the lookup by request of transactions, and with 400 by the
    update of a transaction; none of them changes the database. *)
Theorem malformed_identifier `{Casts} env id body st :
  toObjectId (JString id) = None ->
  RequestRoutes.get id st = (st, respond 500 (error (MessageOf CastError)))
  ∧ RequestRoutes.delete id st = (st, respond 500 (error (MessageOf CastError)))
  ∧ (acceptedStatus (body !! "status") ->
     RequestRoutes.put env id body st
     = (st, respond 500 (error (MessageOf CastError))))
  ∧ (¬ acceptedStatus (body !! "status") ->
     RequestRoutes.put env id body st
     = (st, respond 400 (error (Text "Invalid status"))))
  ∧ TransactionRoutes.getByRequest id st
    = (st, respond 500 (error (MessageOf CastError)))
  ∧ TransactionRoutes.delete id st
    = (st, respond 500 (error (MessageOf CastError)))
  ∧ TransactionRoutes.put id body st
    = (st, respond 400 (error (MessageOf CastError))).
Proof.
  intros Hid.
  unfold RequestRoutes.get, RequestRoutes.delete, TransactionRoutes.getByRequest,
    TransactionRoutes.delete, TransactionRoutes.put, Mongoose.castId.
  rewrite Hid. split_and!; try reflexivity.
  - intros Hs. unfold RequestRoutes.put, Mongoose.castId.
    apply includes_acceptedStatus in Hs as ->. by rewrite Hid.
  - apply put_request_invalid.
Qed.

Lemma malformed_identifier_witness :
  RequestRoutes.get (H := Example.casts) "1" Sample.store1
  = (Sample.store1, respond 500 (error (MessageOf CastError)))
  ∧ TransactionRoutes.put (H := Example.casts) "1"
      (<["Status" := JString "Delivered"]> ∅) Sample.store2
    = (Sample.store2, respond 400 (error (MessageOf CastError))).
Proof.
  split.
  - apply (malformed_identifier (H := Example.casts) Sample.env1 "1" ∅ Sample.store1).
    vm_compute. reflexivity.
  - apply (malformed_identifier (H := Example.casts) Sample.env1 "1"
             (<["Status" := JString "Delivered"]> ∅) Sample.store2).
    vm_compute. reflexivity.
Defined.

(** ** Stored transactions satisfy their schema *)

Lemma validatePath_Some {A B} (check : option A -> Result B) v b :
  Transaction.validatePath check v = Ok (Some b) ->
  ∃ a, v = Some a ∧ check a = Ok b.
Proof.
  destruct v as [a|]; simpl; [|done].
  destruct (check a) as [b'|e] eqn:E; simpl; [|done].
  intros [= ->]. eauto.
Qed.

(** What the update validators let through on the three validated strings. *)
Lemma castUpdate_valid `{Casts} body u :
  Transaction.castUpdate body = Ok u ->
  (∀ s, Transaction.setOwnerID u = Some s -> s ≠ "")
  ∧ (∀ s, Transaction.setBooKID u = Some s -> s ≠ "")
  ∧ (∀ s, Transaction.setStatus u = Some s -> s ∈ Transaction.statuses).
Proof.
  unfold Transaction.castUpdate. intros Hu. unbind. injection Hu as <-. simpl.
  split_and!; intros s ->;
    match goal with
    | E : Transaction.validatePath _ _ = Ok (Some s) |- _ =>
        apply validatePath_Some in E as (? & _ & Hchk)
    end.
  - by apply requiredString_Ok in Hchk as [_ ?].
  - by apply requiredString_Ok in Hchk as [_ ?].
  - cbv beta in Hchk. unbind. by apply enum_Ok in Hchk as [-> ?].
Qed.

Lemma apply_valid `{Casts} body u x :
  Transaction.castUpdate body = Ok u ->
  validTransaction x -> validTransaction (Transaction.apply u x).
Proof.
  intros Hu (Ho & Hb & Hs).
  destruct (castUpdate_valid body u Hu) as (Hou & Hbu & Hsu).
  unfold validTransaction, Transaction.apply. simpl. split_and!.
  - destruct (Transaction.setOwnerID u) as [s|]; simpl; [by apply Hou | done].
  - destruct (Transaction.setBooKID u) as [s|]; simpl; [by apply Hbu | done].
  - destruct (Transaction.setStatus u) as [s|]; simpl; [by apply Hsu | done].
Qed.

Lemma handle_validTransactions `{Casts} c st :
  Forall validTransaction (transactions st) ->
  Forall validTransaction (transactions (handle c st).1).
Proof.
  intros HF. destruct c; cbn [handle].
  - by rewrite post_request_transactions.
  - done.
  - done.
  - by rewrite get_request_store.
  - destruct (put_request_transactions env id body st) as [-> | (x & -> & _ & Hv & _)];
      [done|].
    apply Forall_app_2; [done|]. by apply Forall_cons_2.
  - destruct (delete_request_cases id st)
      as [-> | [-> | (oid & l1 & r & l2 & _ & _ & _ & _ & ->)]]; done.
  - by rewrite post_transaction_rejects.
  - by rewrite getByRequest_store.
  - destruct (put_transaction_cases id body st)
      as [[e ->] | [-> | (oid & u & l1 & x & l2 & _ & Hu & Hst & _ & _ & _ & ->)]];
      [done..|].
    simpl. rewrite Hst in HF. apply Forall_app in HF as [HF1 HF2].
    apply Forall_cons_1 in HF2 as [Hx HF2].
    apply Forall_app_2; [done|]. apply Forall_cons_2; [|done].
    by apply (apply_valid body).
  - destruct (delete_transaction_cases id st)
      as [-> | [-> | (oid & l1 & x & l2 & _ & Hst & _ & _ & ->)]]; [done..|].
    simpl. rewrite Hst in HF. apply Forall_app in HF as [HF1 HF2].
    apply Forall_cons_1 in HF2 as [_ HF2]. by apply Forall_app_2.
Qed.

(** X14.  As long as every update of a transaction is a plain set of
    fields, every stored transaction has a status of the five of the
    enumeration and a non-empty owner and book: so it is in every state
    reached by such calls, and every such call keeps it so.  The one insert
    that succeeds stores Pending, and the update runs the validators on the
    fields it sets. *)
Theorem transactions_valid `{Casts} :
  (∀ st, reachablePlain st -> Forall validTransaction (transactions st))
  ∧ (∀ c st, plainCall c ->
             Forall validTransaction (transactions st) ->
             Forall validTransaction (transactions (handle c st).1)).
Proof.
  split; [|intros c st _; apply handle_validTransactions].
  induction 1 as [|c st Hc Hr IH]; [constructor|]. by apply handle_validTransactions.
Qed.

Lemma transactions_valid_witness :
  Forall validTransaction
    (transactions
       (handle (H := Example.casts) (PutTransaction Sample.id3 Sample.handOver)
          Sample.store2).1).
Proof.
  apply (proj1 (transactions_valid (H := Example.casts))).
  apply (reachablePlain_handle (H := Example.casts)
           (PutTransaction Sample.id3 Sample.handOver)).
  { intros k v Hk. unfold Sample.handOver in Hk.
    destruct (decide (k = "OwnerID")) as [->|Hne1].
    - rewrite lookup_insert_eq in Hk. injection Hk as <-. split; [in_literals | done].
    - rewrite lookup_insert_ne in Hk by done.
      destruct (decide (k = "BookReturnedDate")) as [->|Hne2].
      + rewrite lookup_insert_eq in Hk. injection Hk as <-.
        split; [in_literals | done].
      + rewrite lookup_insert_ne in Hk by done. rewrite lookup_empty in Hk. done. }
  apply (reachablePlain_handle (H := Example.casts)
           (PutRequest Sample.env2 Sample.id1 (Sample.status "Accepted")));
    [exact I|].
  apply (reachablePlain_handle (H := Example.casts)
           (PostRequest Sample.env1 Sample.fullBody)); [exact I|].
  apply reachablePlain_empty.
Defined.

(** ** Answers that are not a success *)

(** X15.  A call that is answered with 400, 404 or 500 has changed nothing
    in the database, with one exception: [PUT /requests/:id] with the status
    Accepted and the answer 500 has changed the request and no
    transaction. *)
Theorem failure_changes_nothing `{Casts} c st :
  code (handle c st).2 ≠ 200%nat -> code (handle c st).2 ≠ 201%nat ->
  transactions (handle c st).1 = transactions st
  ∧ ((handle c st).1 = st
     ∨ ∃ env id body,
         c = PutRequest env id body
         ∧ body !! "status" = Some (JString "Accepted")
         ∧ code (handle c st).2 = 500%nat).
Proof.
  intros H200 H201. destruct c; cbn [handle] in *.
  - rewrite (post_request_failed env body st H201). auto.
  - auto.
  - auto.
  - rewrite get_request_store. auto.
  - destruct (put_request_cases env id body st)
      as [Hp | [Hp | [Hp | (s & oid & r & Hs & Hin & Hoid & Hfind)]]];
      [rewrite Hp; auto..|].
    destruct (put_request_found env id oid body st s r Hoid Hs Hin Hfind)
      as (l1 & l2 & _ & _ & Hput).
    simpl in Hput. rewrite Hput in H200 |- *.
    case_bool_decide as Hacc; [|done]. subst s.
    destruct (bind _ _) as [coll'|e]; simpl in *; [done|].
    split; [done|]. right. by exists env, id, body.
  - destruct (delete_request_cases id st)
      as [-> | [-> | (oid & l1 & r & l2 & _ & _ & _ & _ & Hd)]]; [auto..|].
    by rewrite Hd in H200.
  - rewrite post_transaction_rejects. auto.
  - rewrite getByRequest_store. auto.
  - destruct (put_transaction_cases id body st)
      as [[e ->] | [-> | (oid & u & l1 & x & l2 & _ & _ & _ & _ & _ & _ & Hp)]];
      [auto..|].
    by rewrite Hp in H200.
  - destruct (delete_transaction_cases id st)
      as [-> | [-> | (oid & l1 & x & l2 & _ & _ & _ & _ & Hd)]]; [auto..|].
    by rewrite Hd in H200.
Qed.

Lemma failure_changes_nothing_witness :
  (handle (H := Example.casts) (DeleteRequest Sample.id9) Sample.store2).1
  = Sample.store2
  ∨ ∃ env id body,
      DeleteRequest Sample.id9 = PutRequest env id body
      ∧ body !! "status" = Some (JString "Accepted")
      ∧ code (handle (H := Example.casts) (DeleteRequest Sample.id9) Sample.store2).2
        = 500%nat.
Proof.
  apply (failure_changes_nothing (H := Example.casts) (DeleteRequest Sample.id9)
           Sample.store2).
  - vm_compute. discriminate.
  - vm_compute. discriminate.
Defined.

(** X16.  The transactions grow only by acceptance: a call after which more
    transactions are stored than before is a [PUT /requests/:id] with the
    status Accepted that is answered with 200, and it has added one pending
    transaction at the end. *)
Theorem transactions_grow_by_acceptance `{Casts} c st :
  (length (transactions st) < length (transactions (handle c st).1))%nat ->
  ∃ env id body x,
    c = PutRequest env id body
    ∧ body !! "status" = Some (JString "Accepted")
    ∧ code (handle c st).2 = 200%nat
    ∧ transactions (handle c st).1 = transactions st ++ [x]
    ∧ Transaction.Status x = "Pending".
Proof.
  intros Hlen. destruct c; cbn [handle] in *.
  - rewrite post_request_transactions in Hlen. lia.
  - simpl in Hlen. lia.
  - simpl in Hlen. lia.
  - rewrite get_request_store in Hlen. lia.
  - destruct (put_request_transactions env id body st)
      as [Heq | (x & Hx & _ & _ & Hp & Hs & Hc)].
    + rewrite Heq in Hlen. lia.
    + by exists env, id, body, x.
  - destruct (delete_request_cases id st)
      as [Hd | [Hd | (oid & l1 & r & l2 & _ & _ & _ & _ & Hd)]];
      rewrite Hd in Hlen; simpl in Hlen; lia.
  - rewrite post_transaction_rejects in Hlen. simpl in Hlen. lia.
  - rewrite getByRequest_store in Hlen. lia.
  - destruct (put_transaction_cases id body st)
      as [[e Hp] | [Hp | (oid & u & l1 & x & l2 & _ & _ & Hst & _ & _ & _ & Hp)]];
      rewrite Hp in Hlen; simpl in Hlen; try lia.
    rewrite Hst in Hlen. rewrite !length_app in Hlen. simpl in Hlen. lia.
  - destruct (delete_transaction_cases id st)
      as [Hd | [Hd | (oid & l1 & x & l2 & _ & Hst & _ & _ & Hd)]];
      rewrite Hd in Hlen; simpl in Hlen; try lia.
    rewrite Hst in Hlen. rewrite !length_app in Hlen. simpl in Hlen. lia.
Qed.

Lemma transactions_grow_by_acceptance_witness :
  ∃ env id body x,
    PutRequest Sample.env2 Sample.id1 (Sample.status "Accepted") = PutRequest env id body
    ∧ body !! "status" = Some (JString "Accepted")
    ∧ code (handle (H := Example.casts)
              (PutRequest Sample.env2 Sample.id1 (Sample.status "Accepted"))
              Sample.store1).2 = 200%nat
    ∧ transactions (handle (H := Example.casts)
                      (PutRequest Sample.env2 Sample.id1 (Sample.status "Accepted"))
                      Sample.store1).1 = transactions Sample.store1 ++ [x]
    ∧ Transaction.Status x = "Pending".
Proof.
  apply (transactions_grow_by_acceptance (H := Example.casts)
           (PutRequest Sample.env2 Sample.id1 (Sample.status "Accepted")) Sample.store1).
  vm_compute. lia.
Defined.

(** ** The transaction of a request *)

Lemma list_find_first {A} (P : A -> Prop) `{∀ a, Decision (P a)} l1 a l2 :
  Forall (fun a0 => ¬ P a0) l1 -> P a ->
  list_find P (l1 ++ a :: l2) = Some (length l1, a).
Proof.
  intros HF Ha. induction l1 as [|a0 l1 IH]; simpl.
  - by rewrite decide_True.
  - apply Forall_cons_1 in HF as [Hn HF]. rewrite decide_False by done.
    by rewrite (IH HF).
Qed.




(** X18.  After the acceptance of an existing request in a reachable state,
    with unused generated identifiers, the lookup by request answers the
    transaction just opened when no transaction referred to the request
    before. *)
Theorem accept_then_lookup `{Casts} env id oid body st r :
  reachable st ->
  toObjectId (JString id) = Some oid ->
  Collection.findById Request._id oid (requests st) = Some r ->
  body !! "status" = Some (JString "Accepted") ->
  Transaction.fresh (newId env) (newKey env) (transactions st) ->
  Forall (fun x => Transaction.RequestID x ≠ oid) (transactions st) ->
  let st' := (RequestRoutes.put env id body st).1 in
  TransactionRoutes.getByRequest id st'
  = (st', respond 200 (transaction (openedTransaction env oid r))).
Proof.
  intros Hreach Hoid Hfind Hstatus Hfresh Hnone st'.
  destruct (findById_elem _ _ _ _ Hfind) as [Hin _].
  pose proof (reachable_valid st Hreach) as Hvalid.
  rewrite list.Forall_forall in Hvalid.
  destruct (Hvalid r Hin) as (_ & Hto & Hbook & _).
  destruct (accept_found env id oid body st r Hoid Hstatus Hfind Hto Hbook)
    as (coll & _ & Hput).
  rewrite (insert_transaction_fresh _ (newKey env)) in Hput by done.
  unfold st'. rewrite Hput. simpl.
  unfold TransactionRoutes.getByRequest, Mongoose.castId. rewrite Hoid. simpl.
  by rewrite (list_find_first _ _ _ [] Hnone).
Qed.

Lemma accept_then_lookup_witness :
  TransactionRoutes.getByRequest (H := Example.casts) Sample.id1 Sample.store2
  = (Sample.store2,
     respond 200 (transaction (openedTransaction Sample.env2 1%N
                                 (createdRequest Sample.env1 Sample.fullBody)))).
Proof.
  apply (accept_then_lookup (H := Example.casts) Sample.env2 Sample.id1 1%N
           (Sample.status "Accepted") Sample.store1
           (createdRequest Sample.env1 Sample.fullBody)).
  - apply (reachable_handle (H := Example.casts)
             (PostRequest Sample.env1 Sample.fullBody)).
    apply reachable_empty.
  - vm_compute. reflexivity.
  - vm_compute. reflexivity.
  - vm_compute. reflexivity.
  - constructor.
  - constructor.
Defined.

(** ** The list of transactions *)

(** X19.  [GET /transactions] lists every stored transaction once, in the
    stored order; the request of a transaction is [null] exactly when no
    request with the [_id] the transaction refers to is stored, and
    otherwise it shows the [_id], [RequestID], [RequestedBy] and [BookID] of
    a stored request with that [_id].  So in a reachable state, after
    [DELETE /requests/:id], the transactions of that request are still
    listed, with [null] for the request. *)
Theorem listing_populates `{Casts} st :
  (∃ l, Listing.getAll st = (st, (200%nat, l))
        ∧ l.*1 = transactions st
        ∧ ∀ x p, (x, p) ∈ l ->
            (p = None <->
             Forall (fun r => Request._id r ≠ Transaction.RequestID x) (requests st))
            ∧ (∀ q, p = Some q ->
                 ∃ r, r ∈ requests st
                      ∧ Request._id r = Transaction.RequestID x
                      ∧ Listing._id q = Request._id r
                      ∧ Listing.RequestID q = Request.RequestID r
                      ∧ Listing.RequestedBy q = Request.RequestedBy r
                      ∧ Listing.BookID q = Request.BookID r))
  ∧ (∀ id oid,
       reachable st -> toObjectId (JString id) = Some oid ->
       ∀ x p, (x, p) ∈ (Listing.getAll (RequestRoutes.delete id st).1).2.2 ->
              x ∈ transactions st ∧ (Transaction.RequestID x = oid -> p = None)).
Proof.
  assert (∀ reqs x p,
            Listing.populate reqs x = (x, p) ->
            (p = None <-> Forall (fun r => Request._id r ≠ Transaction.RequestID x) reqs)
            ∧ (∀ q, p = Some q ->
                 ∃ r, r ∈ reqs
                      ∧ Request._id r = Transaction.RequestID x
                      ∧ Listing._id q = Request._id r
                      ∧ Listing.RequestID q = Request.RequestID r
                      ∧ Listing.RequestedBy q = Request.RequestedBy r
                      ∧ Listing.BookID q = Request.BookID r)) as Hpop.
  { intros reqs x p. unfold Listing.populate. intros [= <-].
    destruct (Collection.findById Request._id (Transaction.RequestID x) reqs)
      as [r|] eqn:Hf; simpl.
    - split.
      + split; [done|]. intros HF. apply findById_None in HF. congruence.
      + intros q [= <-]. destruct (findById_elem _ _ _ _ Hf) as [Hin Hid].
        exists r. by split_and!.
    - split; [|done]. split; [|done]. intros _. by apply findById_None. }
  split.
  - exists (Listing.populate (requests st) <$> transactions st).
    split_and!; [done| |].
    + rewrite <- list_fmap_compose. by rewrite list_fmap_id.
    + intros x p Hin. apply list_elem_of_fmap in Hin as (x' & Heq & _).
      unfold Listing.populate in Heq. injection Heq as <- Hp.
      apply Hpop. unfold Listing.populate. by rewrite Hp.
  - intros id oid Hreach Hoid x p Hin. simpl in Hin.
    apply list_elem_of_fmap in Hin as (x' & Heq & Hx').
    destruct (reachable_unique st Hreach) as (Hnd & _).
    destruct (delete_request_gone id oid st Hnd Hoid) as [Hnone Htx].
    rewrite Htx in Hx'.
    unfold Listing.populate in Heq. injection Heq as <- Hp. split; [done|].
    intros Hx. by rewrite Hp, Hx, Hnone.
Qed.

Lemma listing_populates_witness :
  (Listing.populate (requests Sample.store2)
     (openedTransaction Sample.env2 1%N
        (createdRequest Sample.env1 Sample.fullBody))).2
  = Some {| Listing._id := 1%N; Listing.RequestID := 2%N;
            Listing.RequestedBy := "u1"; Listing.BookID := "b1" |}
  ∧ (Listing.populate
       (requests (RequestRoutes.delete (H := Example.casts) Sample.id1 Sample.store2).1)
       (openedTransaction Sample.env2 1%N
          (createdRequest Sample.env1 Sample.fullBody))).2 = None.
Proof.
  split; [vm_compute; reflexivity|].
  destruct (proj2 (listing_populates (H := Example.casts) Sample.store2)
              Sample.id1 1%N) with
    (x := openedTransaction Sample.env2 1%N
            (createdRequest Sample.env1 Sample.fullBody))
    (p := (Listing.populate
             (requests (RequestRoutes.delete (H := Example.casts) Sample.id1
                          Sample.store2).1)
             (openedTransaction Sample.env2 1%N
                (createdRequest Sample.env1 Sample.fullBody))).2)
    as [_ Hnull].
  - apply (reachable_handle (H := Example.casts)
             (PutRequest Sample.env2 Sample.id1 (Sample.status "Accepted"))).
    apply (reachable_handle (H := Example.casts)
             (PostRequest Sample.env1 Sample.fullBody)).
    apply reachable_empty.
  - vm_compute. reflexivity.
  - vm_compute. apply list_elem_of_here.
  - apply Hnull. reflexivity.
Defined.
